(** * WHISPR: signal threat assessment

    A shallow embedding of the scoring and tiering code of the WHISPR
    server ([app.py]), of the standalone scorer
    ([whispr_live_prediction.py]) and of the Bluetooth tiering model
    ([bluetooth_detection_model.py]).

    Modelling choices:
    - Python [float] on the Wi-Fi path is IEEE binary64: Rocq's primitive
      [float], with the same rounding as the interpreter.
    - Python [str] is [string], read as ASCII text, so [lower] and
      [strip] are the ASCII ones.
    - A dict read from JSON is a [gmap string pyval].
    - An exception is a value of [exn]; a call that may raise returns an
      [outcome]; calls into the scoring pipeline, fetches of the scan file
      and socket emissions are recorded in a trace of [event]s.
    - The Bluetooth distance model is stated over the real numbers, where
      [10 ** p] is [Rpower 10 p]. *)

From Stdlib Require Import ZArith List Bool Ascii String DecimalString.
From Stdlib Require Import Uint63 Floats.
From Stdlib Require Import Reals Lra Lia.
From stdpp Require Import base option gmap strings.

Set Warnings "-inexact-float".

Import ListNotations.
Local Open Scope string_scope.
Local Open Scope list_scope.

(** ** Python strings *)

Module PyStr.

Definition lower_ascii (c : ascii) : ascii :=
  let n := nat_of_ascii c in
  if ((65 <=? n) && (n <=? 90))%nat then ascii_of_nat (n + 32) else c.

(** [s.lower()] *)
Fixpoint lower (s : string) : string :=
  match s with
  | EmptyString => EmptyString
  | String c r => String (lower_ascii c) (lower r)
  end.

(** [sub in s] *)
Fixpoint contains (sub s : string) : bool :=
  String.prefix sub s ||
  match s with
  | EmptyString => false
  | String _ r => contains sub r
  end.

(** [s.replace(old, '')] for a one-character [old] *)
Fixpoint remove_char (old : ascii) (s : string) : string :=
  match s with
  | EmptyString => EmptyString
  | String c r =>
      if Ascii.eqb c old then remove_char old r
      else String c (remove_char old r)
  end.

(** the characters [str.strip()] removes: tab, line feed, vertical tab,
    form feed, carriage return, the four separators 28..31 and space *)
Definition is_space (c : ascii) : bool :=
  let n := nat_of_ascii c in
  (((9 <=? n) && (n <=? 13)) || ((28 <=? n) && (n <=? 32)))%nat.

Fixpoint lstrip (s : string) : string :=
  match s with
  | EmptyString => EmptyString
  | String c r => if is_space c then lstrip r else s
  end.

Fixpoint rstrip (s : string) : string :=
  match s with
  | EmptyString => EmptyString
  | String c r =>
      match rstrip r with
      | EmptyString => if is_space c then EmptyString else String c EmptyString
      | r' => String c r'
      end
  end.

(** [s.strip()] *)
Definition strip (s : string) : string := rstrip (lstrip s).

End PyStr.

(** ** Python values, exceptions and results *)

Inductive exn : Type :=
| KeyError (key : string)
| AttributeError (attr : string)
| ValueError
| TypeError
| IndexError
| FileNotFoundError
| OtherException (what : string).

(** What a call yields: a value, or an exception that propagates. *)
Inductive outcome (A : Type) : Type :=
| Return (a : A)
| Raise (e : exn).
Arguments Return {A} a.
Arguments Raise {A} e.

(** A scalar read from a JSON document. *)
Inductive pyval : Type :=
| PNone
| PBool (b : bool)
| PInt (z : Z)
| PFloat (f : float)
| PStr (s : string).

(** A flat JSON object: a network record or a Bluetooth device entry. *)
Abbreviation pydict := (gmap string pyval).

(** [d.get(key, default)] *)
Definition dict_get (d : pydict) (key : string) (default : pyval) : pyval :=
  match d !! key with
  | Some v => v
  | None => default
  end.

(** [d[key]] *)
Definition dict_index (d : pydict) (key : string) : outcome pyval :=
  match d !! key with
  | Some v => Return v
  | None => Raise (KeyError key)
  end.

(** [v.lower()]: only [str] has the method. *)
Definition py_lower (v : pyval) : outcome string :=
  match v with
  | PStr s => Return (PyStr.lower s)
  | _ => Raise (AttributeError "lower")
  end.

(** ** Reports, events and traced computations *)

(** The dict [process_wifi_data] returns, one field per key. *)
Record wifi_report : Type := {
  result : string;
  score : float;
  raw_features : list float;
  ssid : pyval;
  networks : list pydict;
  threat_tier : string
}.

(** What a run does besides returning: the calls of [assess_signal] with
    their argument, the reads of the scan file, the socket emissions and
    the sleeps. *)
Inductive event : Type :=
| EvScore (features : list float)
| EvFetch (file : string)
| EvEmit (channel : string) (report : wifi_report)
| EvSleep (seconds : float).

Definition traced (A : Type) : Type := (list event * outcome A)%type.

#[global] Instance traced_ret : MRet traced := fun A a => ([], Return a).

#[global] Instance traced_bind : MBind traced := fun A B k m =>
  match m with
  | (t, Return a) => let '(t', r) := k a in (t ++ t', r)
  | (t, Raise e) => (t, Raise e)
  end.

(** a call that leaves no trace *)
Definition lift {A} (o : outcome A) : traced A := ([], o).

(** an effect that cannot fail *)
Definition tell (e : event) : traced unit := ([e], Return tt).

(** Code that leaves no trace binds plain outcomes. *)
#[global] Instance outcome_ret : MRet outcome := fun A a => Return a.

#[global] Instance outcome_bind : MBind outcome := fun A B k o =>
  match o with
  | Return a => k a
  | Raise e => Raise e
  end.

(** ** The scoring pipeline of [app.py] *)

Local Open Scope float_scope.

Definition THREAT_THRESHOLD : float := -0.01.
Definition MAX_FILE_READ_ATTEMPTS : nat := 5.
Definition BT_PROXIMITY_LIMIT : float := 10.0.
Definition WIFI_DATA_FILE : string := "scan_results.json".
Definition BT_DATA_FILE : string := "threat_results.json".

(** A two-dimensional array, row by row. *)
Abbreviation matrix := (list (list float)).

(** The pickled objects are known by the one method the server calls on
    each; a call may raise whatever the object raises. *)
Record transformer : Type := { transform : matrix -> outcome matrix }.
Record scorer : Type := { decision_function : matrix -> outcome (list float) }.

(** The module globals [SCALER], [PCA] and [MODEL]; [None] as in Python. *)
Record artifacts : Type := {
  SCALER : option transformer;
  PCA : option transformer;
  MODEL : option scorer
}.

(** What [joblib.load] does on one file. *)
Inductive load (A : Type) : Type :=
| Loaded (a : A)
| NotFound
| LoadFailed.
Arguments Loaded {A} a.
Arguments NotFound {A}.
Arguments LoadFailed {A}.

(** The module-level [try] of [app.py]: the three loads in order; a
    missing file ends the process ([None]), any other failure leaves the
    globals not yet assigned at [None]. *)
Definition load_artifacts (s p : load transformer) (m : load scorer)
  : option artifacts :=
  match s with
  | NotFound => None
  | LoadFailed => Some {| SCALER := None; PCA := None; MODEL := None |}
  | Loaded sc =>
      match p with
      | NotFound => None
      | LoadFailed => Some {| SCALER := Some sc; PCA := None; MODEL := None |}
      | Loaded pc =>
          match m with
          | NotFound => None
          | LoadFailed =>
              Some {| SCALER := Some sc; PCA := Some pc; MODEL := None |}
          | Loaded md =>
              Some {| SCALER := Some sc; PCA := Some pc; MODEL := Some md |}
          end
      end
  end.

(** [obj.method(x)] on a global that may be [None]. *)
Definition call_method {O A B} (obj : option O) (name : string)
    (method : O -> A -> outcome B) (x : A) : outcome B :=
  match obj with
  | Some o => method o x
  | None => Raise (AttributeError name)
  end.

(** [a[0]] *)
Definition first_item {A} (a : list A) : outcome A :=
  match a with
  | x :: _ => Return x
  | [] => Raise IndexError
  end.

(** The body of the [try] in [assess_signal]. *)
Definition assess_signal_body (arts : artifacts) (raw_features : list float)
  : outcome (string * float) :=
  let signal_data := [raw_features] in
  scaled_data ← call_method (SCALER arts) "transform" transform signal_data;
  processed_data ← call_method (PCA arts) "transform" transform scaled_data;
  scores ← call_method (MODEL arts) "decision_function"
             decision_function processed_data;
  anomaly_score ← first_item scores;
  let risk_level :=
    if anomaly_score <? THREAT_THRESHOLD then "THREAT" else "BENIGN" in
  Return (risk_level, anomaly_score).

Definition assess_signal (arts : artifacts) (raw_features : list float)
  : outcome (string * float) :=
  match MODEL arts with
  | None => Return ("PROCESSING_ERROR", 999.0)
  | Some _ =>
      match assess_signal_body arts raw_features with
      | Return r => Return r
      | Raise _ => Return ("PROCESSING_ERROR", 999.0)
      end
  end.

(** ** The Wi-Fi resolver of [app.py] *)

Section WifiServer.

(** The interpreter's [float(s)]: [None] stands for [ValueError]. *)
Variable py_float : string -> option float.
(** The interpreter's [str(x)] on a float. *)
Variable float_repr : float -> string.

(** [str(v)] *)
Definition py_str (v : pyval) : string :=
  match v with
  | PNone => "None"
  | PBool true => "True"
  | PBool false => "False"
  | PInt z => NilZero.string_of_int (Z.to_int z)
  | PFloat f => float_repr f
  | PStr s => s
  end.

(** Locals of [process_wifi_data], each from the statement that assigns
    it. *)
Definition security_value (connected_network : pydict) : string :=
  PyStr.lower (py_str (dict_get connected_network "Authentication" (PStr "N/A"))).

Definition signal_percent_str (connected_network : pydict) : string :=
  PyStr.strip (PyStr.remove_char "%"
    (py_str (dict_get connected_network "Signal (%)" (PStr "70%")))).

Definition ssid_value (connected_network : pydict) : outcome string :=
  py_lower (dict_get connected_network "SSID" (PStr "")).

Definition signal_percent (connected_network : pydict) : float :=
  match py_float (signal_percent_str connected_network) with
  | Some f => f
  | None => 70.0
  end.

Definition is_secure (security_value : string) : bool :=
  PyStr.contains "wpa" security_value
  || PyStr.contains "wpa2" security_value
  || PyStr.contains "wpa3" security_value.

Definition public_keywords : list string :=
  ["guest"; "free"; "public"; "cafe"; "airport"; "hotel"].

Definition is_public_open (is_open : bool) (ssid_value : string) : bool :=
  is_open && existsb (fun k => PyStr.contains k ssid_value) public_keywords.

(** [rssi_variance], [probe_rate], [oui_trust], [anomaly_flag] and
    [threat_tier] after the [if is_open:] block. *)
Definition profile (security_value ssid_value : string)
  : float * float * float * float * string :=
  let is_open := negb (is_secure security_value) in
  if is_open then
    if is_public_open is_open ssid_value
    then (5.0, 30, 7, 0, "MILD")
    else (25.0, 150, 1, 1, "HIGH")
  else (1.5, 10, 9, 0, "LOW").

Definition rssi_mean (signal_percent : float) : float :=
  -100 + signal_percent * 0.7.

Definition no_networks_report : wifi_report :=
  {| result := "NO_NETWORKS_FOUND";
     score := 0.0;
     raw_features := repeat (-1.0) 5;
     ssid := PStr "N/A";
     networks := [];
     threat_tier := "LOW" |}.

Definition process_wifi_data (arts : artifacts)
    (full_network_list : list pydict) : traced wifi_report :=
  match full_network_list with
  | [] => mret no_networks_report
  | connected_network :: _ =>
      let security_value := security_value connected_network in
      ssid_value ← lift (ssid_value connected_network);
      let signal_percent := signal_percent connected_network in
      let '(rssi_variance, probe_rate, oui_trust, anomaly_flag, threat_tier) :=
        profile security_value ssid_value in
      let raw_features_to_score :=
        [rssi_mean signal_percent; rssi_variance; probe_rate; oui_trust;
         anomaly_flag] in
      _ ← tell (EvScore raw_features_to_score);
      '(risk_level, score) ← lift (assess_signal arts raw_features_to_score);
      let threat_tier :=
        if String.eqb risk_level "THREAT" then "CRITICAL" else threat_tier in
      (* the log line formats connected_network['SSID'] *)
      _ ← lift (dict_index connected_network "SSID");
      ssid ← lift (dict_index connected_network "SSID");
      mret {| result := risk_level;
              score := score;
              raw_features := raw_features_to_score;
              ssid := ssid;
              networks := full_network_list;
              threat_tier := threat_tier |}
  end.

End WifiServer.

(** An instance of [float(s)] for the scenarios: it reads a string of at
    most fifteen decimal digits, on which the conversion is exact. *)
Fixpoint digits_value (s : string) (acc : Z) : option Z :=
  match s with
  | EmptyString => Some acc
  | String c r =>
      let n := nat_of_ascii c in
      if ((48 <=? n) && (n <=? 57))%nat
      then digits_value r (10 * acc + Z.of_nat (n - 48))
      else None
  end.

Definition float_of_digits (s : string) : option float :=
  match s with
  | EmptyString => None
  | _ =>
      if (String.length s <=? 15)%nat then
        match digits_value s 0 with
        | Some z => Some (PrimFloat.of_uint63 (Uint63.of_Z z))
        | None => None
        end
      else None
  end.

(** ** Reading the hand-off files *)

(** What one pass through the [try] of [get_latest_data] meets. *)
Inductive read_attempt (A : Type) : Type :=
| FileAbsent            (* [os.path.exists] is false *)
| Parsed (data : A)     (* [json.load] returned *)
| Unreadable            (* [IOError] or [JSONDecodeError]: sleep, go on *)
| FatalRead.            (* any other exception: leave the loop *)
Arguments FileAbsent {A}.
Arguments Parsed {A} data.
Arguments Unreadable {A}.
Arguments FatalRead {A}.

(** The [for attempt in range(...)] loop from [attempt] on, with [left]
    passes to go; [reads] tells what each pass meets. *)
Fixpoint get_latest_data_from {A} (reads : nat -> read_attempt A)
    (attempt left : nat) : option A :=
  match left with
  | O => None
  | S left' =>
      match reads attempt with
      | FileAbsent => None
      | Parsed data => Some data
      | Unreadable => get_latest_data_from reads (S attempt) left'
      | FatalRead => None
      end
  end.

Definition get_latest_data {A} (reads : nat -> read_attempt A) : option A :=
  get_latest_data_from reads 0 MAX_FILE_READ_ATTEMPTS.

(** ** The background watcher of [app.py] *)

(** What the outside world answers during one pass of the loop. *)
Record tick_env : Type := {
  getmtime : outcome float;
  scan_reads : nat -> read_attempt (list pydict);
  emit : wifi_report -> outcome unit
}.

Section Watcher.

Variable py_float : string -> option float.
Variable float_repr : float -> string.
Variable arts : artifacts.

(** [get_latest_scan_data()] *)
Definition get_latest_scan_data (env : tick_env) : traced (option (list pydict)) :=
  _ ← tell (EvFetch WIFI_DATA_FILE);
  mret (get_latest_data (scan_reads env)).

(** [if full_network_list:] *)
Definition truthy (full_network_list : option (list pydict)) : option (list pydict) :=
  match full_network_list with
  | Some (n :: ns) => Some (n :: ns)
  | _ => None
  end.

(** The body of the [try] in [check_for_file_updates]; it returns the
    value of [last_modified_time] it leaves. *)
Definition tick_body (env : tick_env) (last_modified_time : float)
  : traced float :=
  current_modified_time ← lift (getmtime env);
  marker ←
    (if last_modified_time <? current_modified_time then
       full_network_list ← get_latest_scan_data env;
       match truthy full_network_list with
       | Some nets =>
           report_data ← process_wifi_data py_float float_repr arts nets;
           _ ← tell (EvEmit "new_wifi_data" report_data);
           _ ← lift (emit env report_data);
           mret current_modified_time
       | None => mret last_modified_time
       end
     else mret last_modified_time);
  _ ← tell (EvSleep 1);
  mret marker.

(** One pass of the [while] loop: the [try] with its two handlers, both
    of which sleep five seconds and leave the marker alone. *)
Definition tick (env : tick_env) (last_modified_time : float)
  : float * list event :=
  match tick_body env last_modified_time with
  | (t, Return marker) => (marker, t)
  | (t, Raise _) => (last_modified_time, t ++ [EvSleep 5])
  end.

(** The loop, for as many passes as the stop event allows. *)
Fixpoint check_for_file_updates (envs : list tick_env)
    (last_modified_time : float) : float * list event :=
  match envs with
  | [] => (last_modified_time, [])
  | env :: envs' =>
      let '(marker, t) := tick env last_modified_time in
      let '(final, t') := check_for_file_updates envs' marker in
      (final, t ++ t')
  end.

End Watcher.

(** ** The Bluetooth endpoint of [app.py] *)

(** The document in [threat_results.json]: its [devices] entry and its
    scalar entries. *)
Record bt_raw : Type := {
  bt_devices : option (list pydict);
  bt_scalars : pydict
}.

Record bt_report : Type := {
  scan_time : pyval;
  iteration : pyval;
  devices_detected : nat;
  devices : list pydict;
  max_threat : string
}.

(** [z <= f] for an [int] and a [float]: Python compares the exact
    values. *)
Definition int_le_float (z : Z) (f : float) : bool :=
  match Prim2SF f with
  | S754_zero _ => (z <=? 0)%Z
  | S754_infinity s => negb s
  | S754_nan => false
  | S754_finite s m e =>
      let v := if s then Z.neg m else Z.pos m in
      if (0 <=? e)%Z then (z <=? v * 2 ^ e)%Z else (z * 2 ^ (- e) <=? v)%Z
  end.

(** [v <= limit] for a float [limit]; [None] and [str] do not compare
    with a number. *)
Definition py_le_float (v : pyval) (limit : float) : outcome bool :=
  match v with
  | PFloat f => Return (f <=? limit)
  | PInt z => Return (int_le_float z limit)
  | PBool b => Return (int_le_float (if b then 1 else 0) limit)
  | PNone | PStr _ => Raise TypeError
  end.

(** [v == s] for a string [s] *)
Definition py_eq_str (v : pyval) (s : string) : bool :=
  match v with
  | PStr s' => String.eqb s' s
  | _ => false
  end.

(** The list comprehension of the proximity filter. *)
Fixpoint filter_devices (devs : list pydict) : outcome (list pydict) :=
  match devs with
  | [] => Return []
  | device :: rest =>
      keep ← py_le_float
               (dict_get device "distance_m" (PFloat (BT_PROXIMITY_LIMIT + 1)))
               BT_PROXIMITY_LIMIT;
      rest' ← filter_devices rest;
      Return (if keep : bool then device :: rest' else rest')
  end.

(** The [for device in filtered_devices] loop, from [max_threat] on. *)
Fixpoint max_threat_loop (filtered_devices : list pydict) (max_threat : string)
  : outcome string :=
  match filtered_devices with
  | [] => Return max_threat
  | device :: rest =>
      status ← dict_index device "status";
      if py_eq_str status "CRITICAL" then Return "CRITICAL"
      else
        status' ← dict_index device "status";
        if py_eq_str status' "HIGH" then max_threat_loop rest "HIGH"
        else max_threat_loop rest max_threat
  end.

(** [not bt_raw_data] on a document that was read: a dict with no entry. *)
Definition bt_empty (d : bt_raw) : bool :=
  match bt_devices d with
  | None => bool_decide (bt_scalars d = ∅)
  | Some _ => false
  end.

(** The answer when there is no data. *)
Definition no_devices_report (now : string) : bt_report :=
  {| scan_time := PStr now; iteration := PInt 0;
     devices_detected := 0; devices := []; max_threat := "LOW" |}.

(** [bluetooth_scan_endpoint], given the clock reading [now] and what
    [get_latest_data(BT_DATA_FILE)] returned. *)
Definition bluetooth_scan_endpoint (now : string) (bt_raw_data : option bt_raw)
  : outcome bt_report :=
  match bt_raw_data with
  | None => Return (no_devices_report now)
  | Some d =>
      if bt_empty d then Return (no_devices_report now)
      else
        filtered_devices ←
          filter_devices (match bt_devices d with Some l => l | None => [] end);
        max_threat ← max_threat_loop filtered_devices "LOW";
        Return {| scan_time := dict_get (bt_scalars d) "scan_time" (PStr now);
                  iteration := dict_get (bt_scalars d) "iteration" (PInt 1);
                  devices_detected := length filtered_devices;
                  devices := filtered_devices;
                  max_threat := max_threat |}
  end.

(** ** The standalone scorer of [whispr_live_prediction.py] *)

Module LivePrediction.

(** The module-level [try]: a missing file resets the three globals to
    [None]; any other failure propagates and the module does not load
    ([None] here). *)
Definition load_artifacts (s p : load transformer) (m : load scorer)
  : option artifacts :=
  let none := {| SCALER := None; PCA := None; MODEL := None |} in
  match s with
  | NotFound => Some none
  | LoadFailed => None
  | Loaded sc =>
      match p with
      | NotFound => Some none
      | LoadFailed => None
      | Loaded pc =>
          match m with
          | NotFound => Some none
          | LoadFailed => None
          | Loaded md =>
              Some {| SCALER := Some sc; PCA := Some pc; MODEL := Some md |}
          end
      end
  end.

(** the local of [assess_live_signal] *)
Definition THREAT_THRESHOLD : float := -0.1.

Definition assess_live_signal (arts : artifacts) (raw_features : list float)
  : outcome (string * float) :=
  match MODEL arts with
  | None => Return ("ERROR", 999.0)
  | Some _ =>
      let signal_data := [raw_features] in
      scaled_data ← call_method (SCALER arts) "transform" transform signal_data;
      processed_data ← call_method (PCA arts) "transform" transform scaled_data;
      scores ← call_method (MODEL arts) "decision_function"
                 decision_function processed_data;
      anomaly_score ← first_item scores;
      let risk_level :=
        if anomaly_score <? THREAT_THRESHOLD then "THREAT" else "BENIGN" in
      Return (risk_level, anomaly_score)
  end.

End LivePrediction.

Local Close Scope float_scope.

(** ** The Bluetooth model of [bluetooth_detection_model.py]

    Signal strengths and distances are real numbers here. *)

Module Bluetooth.

Local Open Scope R_scope.

Definition RSSI_AT_1M : R := -59.0.
Definition PATH_LOSS_EXPONENT : R := 2.8.

Definition MAJOR_CLASS_AUDIO_VIDEO : Z := 4.
Definition MAJOR_CLASS_PHONE : Z := 2.

Definition get_major_class_from_name (device_name : string) : Z :=
  match device_name with
  | EmptyString => 0%Z
  | _ =>
      let name_lower := PyStr.lower device_name in
      if PyStr.contains "mic" name_lower
         || PyStr.contains "headset" name_lower
         || PyStr.contains "speaker" name_lower
      then MAJOR_CLASS_AUDIO_VIDEO
      else MAJOR_CLASS_PHONE
  end.

Definition calculate_distance (rssi : R) : R :=
  if Rge_dec rssi RSSI_AT_1M then 0.1
  else
    let power := (RSSI_AT_1M - rssi) / (10.0 * PATH_LOSS_EXPONENT) in
    Rpower 10 power.

(** Which of the five description templates was chosen; the text
    itself prints the distance and is left out. *)
Inductive description_kind : Type :=
| SafeDistance
| ProximateAudioVideo
| UnusuallyClose
| AudioWithinRoom
| NormalProximity.

(** The dict [assess_bluetooth_threat] returns; [distance] is the value
    the table tested, before [round(distance, 2)]. *)
Record assessment : Type := {
  status : string;
  distance : R;
  rssi_dbm : R;
  description : description_kind;
  device_type_code : Z;
  device_name : string
}.

Definition assess_bluetooth_threat (rssi : R) (device_class_major : Z)
    (device_name : string) : assessment :=
  let distance := calculate_distance rssi in
  let device_name_lower := PyStr.lower device_name in
  let '(threat_level, description) :=
    if Rlt_dec distance 0.5 then
      if (device_class_major =? MAJOR_CLASS_AUDIO_VIDEO)%Z
         || PyStr.contains "sniffer" device_name_lower
         || PyStr.contains "mic" device_name_lower
      then ("CRITICAL", ProximateAudioVideo)
      else ("HIGH", UnusuallyClose)
    else if Rlt_dec distance 3.0 then
      if PyStr.contains "mic" device_name_lower
         || (device_class_major =? MAJOR_CLASS_AUDIO_VIDEO)%Z
      then ("HIGH", AudioWithinRoom)
      else ("LOW", NormalProximity)
    else ("LOW", SafeDistance) in
  {| status := threat_level;
     distance := distance;
     rssi_dbm := rssi;
     description := description;
     device_type_code := device_class_major;
     device_name := device_name |}.

(** The loop of [perform_scan_and_assess] over the devices the scan
    collected, each with its address, name and signal strength. *)
Definition perform_scan_and_assess (detected_devices : list (string * (string * R)))
  : list (string * assessment) :=
  map (fun '(address, (name, rssi)) =>
         let device_class := get_major_class_from_name name in
         (address, assess_bluetooth_threat rssi device_class name))
      detected_devices.

End Bluetooth.

(** ** Scenarios *)

(** An instance of [str(f)] for the scenarios, exact on whole numbers of
    magnitude below ten to the sixteenth. *)
Definition repr_whole_float (f : float) : string :=
  match Prim2SF f with
  | S754_zero s => if s then "-0.0" else "0.0"
  | S754_finite s m e =>
      let v := if (0 <=? e)%Z then (Z.pos m * 2 ^ e)%Z else (Z.pos m / 2 ^ (- e))%Z in
      NilZero.string_of_int (Z.to_int (if s then (- v)%Z else v)) ++ ".0"
  | S754_infinity s => if s then "-inf" else "inf"
  | S754_nan => "nan"
  end.

(** A secure network heard at 80%. *)
Definition scenario_A : pydict :=
  list_to_map [("SSID", PStr "HomeNet");
               ("Authentication", PStr "WPA2-Personal");
               ("Signal (%)", PStr "80%")].

(** An open network with no public keyword in its name. *)
Definition scenario_C : pydict :=
  list_to_map [("SSID", PStr "xyz123");
               ("Authentication", PStr "Open");
               ("Signal (%)", PStr "90%")].

(** A record the bridge's parser would not emit: no [SSID] entry. *)
Definition nameless_record : pydict :=
  list_to_map [("Authentication", PStr "Open"); ("Signal (%)", PStr "55%")].

(** Artifacts that load and put every vector at distance -0.5 from the
    boundary. *)
Definition flagging_artifacts : artifacts :=
  {| SCALER := Some {| transform := fun x => Return x |};
     PCA := Some {| transform := fun x => Return x |};
     MODEL := Some {| decision_function := fun _ => Return [(-0.5)%float] |} |}.

(** Artifacts whose scaler rejects its input. *)
Definition rejecting_artifacts : artifacts :=
  {| SCALER := Some {| transform := fun _ => Raise ValueError |};
     PCA := Some {| transform := fun x => Return x |};
     MODEL := Some {| decision_function := fun _ => Return [(-0.5)%float] |} |}.

(** No artifact loaded. *)
Definition no_artifacts : artifacts :=
  {| SCALER := None; PCA := None; MODEL := None |}.

(** A pass of the watcher over a newer file that does not parse. *)
Definition unparseable_env : tick_env :=
  {| getmtime := Return 200%float;
     scan_reads := fun _ => Unreadable;
     emit := fun _ => Return tt |}.

(** A Bluetooth document with a device in the room, one beyond the limit
    and one without a distance. *)
Definition device_near : pydict :=
  list_to_map [("status", PStr "HIGH"); ("distance_m", PFloat 2.5%float)].
Definition device_far : pydict :=
  list_to_map [("status", PStr "CRITICAL"); ("distance_m", PFloat 12.0%float)].
Definition device_unmeasured : pydict :=
  list_to_map [("status", PStr "CRITICAL")].
Definition three_devices : bt_raw :=
  {| bt_devices := Some [device_near; device_far; device_unmeasured];
     bt_scalars := list_to_map [("iteration", PInt 7)] |}.

(** ** Vocabulary of the statements *)

(** A stored distance is strictly greater than the proximity limit. *)
Definition exceeds_limit (v : pyval) : Prop :=
  match v with
  | PFloat f => (BT_PROXIMITY_LIMIT <? f)%float = true
  | PInt z => (10 < z)%Z
  | _ => False
  end.

(** A device entry the endpoint can handle: a status, and a distance
    that is a number when there is one. *)
Definition well_formed_device (device : pydict) : Prop :=
  is_Some (device !! "status")
  /\ match device !! "distance_m" with
     | Some PNone | Some (PStr _) => False
     | _ => True
     end.

(** ** The one-shot endpoint of [app.py] *)

(** The two pieces of process state the request path and the watcher
    share: the global [last_modified_time] and whether a thread named
    [file_monitor] is alive. A request is taken to run between two passes
    of the watcher. *)
Record server_state : Type := {
  st_last_modified_time : float;
  st_monitor_running : bool
}.

(** What the outside world answers during one request. *)
Record request_env : Type := {
  rq_files : tick_env;
  rq_exists : bool;
  rq_thread_start : outcome unit
}.

Section Endpoint.

Variable py_float : string -> option float.
Variable float_repr : float -> string.
Variable arts : artifacts.

(** Step 1 of [score_signal_endpoint]. *)
Definition initial_scan (env : request_env) : traced wifi_report :=
  wifi_raw ← get_latest_scan_data (rq_files env);
  match truthy wifi_raw with
  | Some nets => process_wifi_data py_float float_repr arts nets
  | None => process_wifi_data py_float float_repr arts []
  end.

(** Step 2: the [if not any(...)] block with its [try]; whatever is
    raised inside is printed and dropped. *)
Definition start_monitor (env : request_env) (st : server_state)
  : server_state :=
  if st_monitor_running st then st
  else
    let marked :=
      if rq_exists env then getmtime (rq_files env)
      else Return (st_last_modified_time st) in
    match marked with
    | Raise _ => st
    | Return mtime =>
        {| st_last_modified_time := mtime;
           st_monitor_running :=
             match rq_thread_start env with
             | Return _ => true
             | Raise _ => false
             end |}
    end.

(** [score_signal_endpoint]: an exception of step 1 leaves the handler
    before step 2. *)
Definition score_signal_endpoint (env : request_env) (st : server_state)
  : server_state * traced wifi_report :=
  match initial_scan env with
  | (t, Return wifi_processed) =>
      (start_monitor env st, (t, Return wifi_processed))
  | (t, Raise e) => (st, (t, Raise e))
  end.

End Endpoint.

(** The socket emissions in a trace. *)
Definition emissions (t : list event) : list wifi_report :=
  omap (fun e => match e with EvEmit _ r => Some r | _ => None end) t.

(** The reads of the scan file in a trace. *)
Definition fetches (t : list event) : nat :=
  length (List.filter
            (fun e => match e with EvFetch _ => true | _ => false end) t).

(** A pass of the watcher over a newer file whose first record has no
    [SSID] entry. *)
Definition nameless_env : tick_env :=
  {| getmtime := Return 200%float;
     scan_reads := fun _ => Parsed [nameless_record];
     emit := fun _ => Return tt |}.

(** A pass over a newer file that holds scenario A. *)
Definition scenario_A_env : tick_env :=
  {| getmtime := Return 200%float;
     scan_reads := fun _ => Parsed [scenario_A];
     emit := fun _ => Return tt |}.

(** A record whose [SSID] entry is a number. *)
Definition numbered_record : pydict :=
  list_to_map [("SSID", PInt 5); ("Authentication", PStr "WPA2-Personal")].

(** A file that parses at the third attempt. *)
Definition third_time_lucky : nat -> read_attempt (list pydict) :=
  fun attempt =>
    match attempt with
    | 0%nat | 1%nat => Unreadable
    | _ => Parsed [scenario_A]
    end.

(** A first request: the scan file is there, holds scenario A and was
    last modified at time 200; no monitor runs yet. *)
Definition first_request : request_env :=
  {| rq_files := scenario_A_env; rq_exists := true;
     rq_thread_start := Return tt |}.

(** A request that finds no scan file. *)
Definition request_without_file : request_env :=
  {| rq_files := {| getmtime := Raise FileNotFoundError;
                    scan_reads := fun _ => FileAbsent;
                    emit := fun _ => Return tt |};
     rq_exists := false;
     rq_thread_start := Return tt |}.

(** A request that finds a scan whose first record has no [SSID]. *)
Definition nameless_request : request_env :=
  {| rq_files := nameless_env; rq_exists := true;
     rq_thread_start := Return tt |}.

Definition fresh_state : server_state :=
  {| st_last_modified_time := 0%float; st_monitor_running := false |}.

Definition monitored_state : server_state :=
  {| st_last_modified_time := 100%float; st_monitor_running := true |}.


(** The device entries of the document the endpoint was given. *)
Definition input_devices (bt_raw_data : option bt_raw) : list pydict :=
  match bt_raw_data with
  | Some d => match bt_devices d with Some l => l | None => [] end
  | None => []
  end.

(** The test of the proximity filter, where it does not raise. *)
Definition within_limit (device : pydict) : bool :=
  match py_le_float
          (dict_get device "distance_m"
             (PFloat (PrimFloat.add BT_PROXIMITY_LIMIT 1)))
          BT_PROXIMITY_LIMIT with
  | Return keep => keep
  | Raise _ => false
  end.

(** The device's [status] entry is the string [s]. *)
Definition has_status (s : string) (device : pydict) : Prop :=
  device !! "status" = Some (PStr s).

(** A device entry whose distance is a string. *)
Definition device_mistyped : pydict :=
  list_to_map [("status", PStr "LOW"); ("distance_m", PStr "2.5")].


(** ** The scan of [bluetooth_detection_model.py] *)

Module BluetoothScan.

(** What the radio hands to [detection_callback] for one packet:
    [device.name], [advertisement_data.local_name], [device.address] and
    [advertisement_data.rssi]. *)
Record advertisement : Type := {
  adv_name : option string;
  adv_local_name : option string;
  adv_address : string;
  adv_rssi : Z
}.

(** An operand of [or] that is not [None] and not the empty string. *)
Definition truthy_name (n : option string) : option string :=
  match n with
  | Some (String c r) => Some (String c r)
  | _ => None
  end.

(** [device.name or advertisement_data.local_name or device.address] *)
Definition advertised_name (adv : advertisement) : string :=
  match truthy_name (adv_name adv) with
  | Some n => n
  | None =>
      match truthy_name (adv_local_name adv) with
      | Some n => n
      | None => adv_address adv
      end
  end.

(** The global [detected_devices]: a dict in insertion order, from an
    address to the name and signal strength last stored for it. *)
Abbreviation detected := (list (string * (string * Z))).

(** [d[address] = entry]: a key already there keeps its place. *)
Fixpoint dict_store (address : string) (entry : string * Z) (d : detected)
  : detected :=
  match d with
  | [] => [(address, entry)]
  | (a, e) :: r =>
      if String.eqb a address then (a, entry) :: r
      else (a, e) :: dict_store address entry r
  end.

Definition detection_callback (adv : advertisement)
    (detected_devices : detected) : detected :=
  if (adv_rssi adv <? 0)%Z
  then dict_store (adv_address adv) (advertised_name adv, adv_rssi adv)
         detected_devices
  else detected_devices.

(** [detected_devices] after the packets of one scan, starting from the
    empty dict. *)
Definition collect (packets : list advertisement) : detected :=
  fold_left (fun d adv => detection_callback adv d) packets [].

(** [perform_scan_and_assess] for a scan during which [packets] came in. *)
Definition perform_scan_and_assess (packets : list advertisement)
  : list (string * Bluetooth.assessment) :=
  Bluetooth.perform_scan_and_assess
    (map (fun '(address, (name, rssi)) => (address, (name, IZR rssi)))
         (collect packets)).

End BluetoothScan.

(** [d.get(address)] on the insertion-ordered dict of the scan. *)
Fixpoint stored (address : string) (d : BluetoothScan.detected)
  : option (string * Z) :=
  match d with
  | [] => None
  | (a, e) :: r => if String.eqb a address then Some e else stored address r
  end.

(** A headset seen three times, the last time closest, and a phone that
    reports a signal strength of zero. *)
Definition headset_far : BluetoothScan.advertisement :=
  {| BluetoothScan.adv_name := None;
     BluetoothScan.adv_local_name := Some "BT Headset";
     BluetoothScan.adv_address := "AA:01";
     BluetoothScan.adv_rssi := (-80)%Z |}.
Definition headset_near : BluetoothScan.advertisement :=
  {| BluetoothScan.adv_name := Some "";
     BluetoothScan.adv_local_name := Some "BT Headset";
     BluetoothScan.adv_address := "AA:01";
     BluetoothScan.adv_rssi := (-50)%Z |}.
Definition phone_at_zero : BluetoothScan.advertisement :=
  {| BluetoothScan.adv_name := Some "Phone";
     BluetoothScan.adv_local_name := None;
     BluetoothScan.adv_address := "BB:02";
     BluetoothScan.adv_rssi := 0%Z |}.
Definition anonymous_beacon : BluetoothScan.advertisement :=
  {| BluetoothScan.adv_name := None;
     BluetoothScan.adv_local_name := None;
     BluetoothScan.adv_address := "CC:03";
     BluetoothScan.adv_rssi := (-70)%Z |}.

(** ** More of Python's [str] *)

Module PyText.

Definition upper_ascii (c : ascii) : ascii :=
  let n := nat_of_ascii c in
  if ((97 <=? n) && (n <=? 122))%nat then ascii_of_nat (n - 32) else c.

(** [s.upper()] *)
Fixpoint upper (s : string) : string :=
  match s with
  | EmptyString => EmptyString
  | String c r => String (upper_ascii c) (upper r)
  end.

(** [s.split(sep, 1)] for a one-character [sep]: the text before the
    first [sep] and the text after it, or [None] when there is no [sep]
    and the result has one part. *)
Fixpoint split_once (sep : ascii) (s : string) : option (string * string) :=
  match s with
  | EmptyString => None
  | String c r =>
      if Ascii.eqb c sep then Some (EmptyString, r)
      else match split_once sep r with
           | Some (before, after) => Some (String c before, after)
           | None => None
           end
  end.

(** [s.split(sep)] for a one-character [sep]; [cur] is the part being
    read. *)
Fixpoint split_on (sep : ascii) (s : string) (cur : string) : list string :=
  match s with
  | EmptyString => [cur]
  | String c r =>
      if Ascii.eqb c sep then cur :: split_on sep r EmptyString
      else split_on sep r (String.append cur (String c EmptyString))
  end.

(** The line boundaries of [str.splitlines] among the ASCII characters,
    carriage return apart. *)
Definition is_line_end (c : ascii) : bool :=
  let n := nat_of_ascii c in
  ((n =? 10) || (n =? 11) || (n =? 12) || (n =? 28) || (n =? 29) || (n =? 30))%nat.

(** [s.splitlines()]; [cur] is the line being read and [after_cr] says
    that the character before was a carriage return. *)
Fixpoint splitlines_from (s : string) (cur : string) (after_cr : bool)
  : list string :=
  match s with
  | EmptyString => match cur with EmptyString => [] | _ => [cur] end
  | String c r =>
      if (nat_of_ascii c =? 13)%nat then cur :: splitlines_from r EmptyString true
      else if (nat_of_ascii c =? 10)%nat && after_cr
           then splitlines_from r cur false
      else if is_line_end c then cur :: splitlines_from r EmptyString false
      else splitlines_from r (String.append cur (String c EmptyString)) false
  end.

Definition splitlines (s : string) : list string :=
  splitlines_from s EmptyString false.

(** Where [re.split(r'\s{2,}', s)] stands in the text. *)
Inductive gap_state : Type :=
| InField (cur : string)
| OneBlank (cur : string) (blank : ascii)
| InGap.

(** [re.split(r'\s{2,}', s)]: the text between the runs of two or more
    blanks; a single blank stays in its field. *)
Fixpoint split_wide_gaps_from (s : string) (st : gap_state) : list string :=
  match s with
  | EmptyString =>
      match st with
      | InField cur => [cur]
      | OneBlank cur blank => [String.append cur (String blank EmptyString)]
      | InGap => [EmptyString]
      end
  | String c r =>
      match st with
      | InField cur =>
          if PyStr.is_space c then split_wide_gaps_from r (OneBlank cur c)
          else split_wide_gaps_from r (InField (String.append cur (String c EmptyString)))
      | OneBlank cur blank =>
          if PyStr.is_space c then cur :: split_wide_gaps_from r InGap
          else split_wide_gaps_from r
                 (InField (String.append cur (String blank (String c EmptyString))))
      | InGap =>
          if PyStr.is_space c then split_wide_gaps_from r InGap
          else split_wide_gaps_from r (InField (String c EmptyString))
      end
  end.

Definition split_wide_gaps (s : string) : list string :=
  split_wide_gaps_from s (InField EmptyString).

End PyText.

(** ** The scanner side of the hand-off: [local_data_bridge.py] *)

Module Bridge.

(** A record while the parsers build it: every value is a string. *)
Abbreviation strdict := (gmap string string).

(** [classify_security]; the argument is [None] or a string. *)
Definition classify_security (security_type : option string) : Z :=
  match security_type with
  | None => 0
  | Some text =>
      let stripped := PyText.upper (PyStr.strip text) in
      if existsb (String.eqb stripped) ["N/A"; "NONE"; "OPEN"; ""] then 0
      else
        let security_type := PyText.upper text in
        if PyStr.contains "WEP" security_type then 0
        else if PyStr.contains "WPA2" security_type
                || PyStr.contains "WPA3" security_type then 1
        else 0
  end.

(** [classify_ssid_type] on a string. *)
Definition classify_ssid_type (ssid : string) : string :=
  match ssid with
  | EmptyString => "Hidden/Unknown"
  | _ =>
      if String.eqb (PyStr.strip ssid) "<Hidden SSID>"
         || String.eqb (PyText.upper (PyStr.strip ssid)) "N/A"
      then "Hidden/Unknown"
      else
        let ssid_lower := PyStr.lower ssid in
        let any_of keywords :=
          existsb (fun k => PyStr.contains k ssid_lower) keywords in
        if any_of ["guest"; "free"; "public"; "library"; "cafe"; "airport";
                   "hotel"; "starbucks"; "mcdonalds"]
        then "Public/Guest"
        else if any_of ["iphone"; "androidap"; "tether"; "hotspot"; "samsung";
                        "mobile"]
        then "Mobile Hotspot"
        else if any_of ["corp"; "ent"; "internal"; "office"; "server"; "hosp";
                        "bank"; "secure"]
        then "Corporate/Enterprise"
        else "Personal/Residential"
  end.

(** The two-line idiom of the Windows parser: split at the first colon
    and, when there are two parts, store the second one stripped. *)
Definition store_after_colon (key line : string) (current_network : strdict)
  : strdict :=
  match PyText.split_once ":" line with
  | Some (_, value) => <[key := PyStr.strip value]> current_network
  | None => current_network
  end.

(** One turn of the [for line in output.splitlines()] loop on
    [networks] and [current_network]. *)
Definition windows_line (timestamp : string) (line : string)
    (st : list strdict * strdict) : list strdict * strdict :=
  let '(networks, current_network) := st in
  let line := PyStr.strip line in
  match line with
  | EmptyString => st
  | _ =>
      if String.prefix "SSID " line then
        let networks :=
          match current_network !! "SSID" with
          | Some _ => networks ++ [current_network]
          | None => networks
          end in
        (networks, store_after_colon "SSID" line {["Timestamp" := timestamp]})
      else if PyStr.contains "BSSID" line
              && negb (PyStr.contains "Interface" line) then
        (networks, store_after_colon "BSSID" line current_network)
      else if PyStr.contains "Signal" line then
        (networks, store_after_colon "Signal (%)" line current_network)
      else if PyStr.contains "Authentication" line then
        (networks, store_after_colon "Authentication" line current_network)
      else if PyStr.contains "Radio type" line then
        (networks, store_after_colon "Radio Type" line current_network)
      else st
  end.

Definition parse_windows_output (output timestamp : string) : list strdict :=
  let '(networks, current_network) :=
    fold_left (fun st line => windows_line timestamp line st)
      (PyText.splitlines output) ([], {["Timestamp" := timestamp]}) in
  match current_network !! "SSID" with
  | Some _ => networks ++ [current_network]
  | None => networks
  end.

(** The record of one line of the Linux listing, when it has the eight
    fields. *)
Definition linux_record (timestamp line : string) : option strdict :=
  match PyText.split_wide_gaps (PyStr.strip line) with
  | f0 :: f1 :: _ :: f3 :: _ :: f5 :: _ :: f7 :: _ =>
      Some (<["Timestamp" := timestamp]>
            (<["BSSID" := f0]>
            (<["SSID" := f1]>
            (<["Channel" := f3]>
            (<["Signal (%)" := f5]>
            (<["Security" := f7]> ∅))))))
  | _ => None
  end.

Definition parse_linux_output (output timestamp : string) : list strdict :=
  match PyText.split_on "010" (PyStr.strip output) EmptyString with
  | _ :: ((_ :: _) as rows) => omap (linux_record timestamp) rows
  | _ => []
  end.

(** Step 4 of [scan_and_store_wifi_networks] on one record, which is
    then what [json.dump] writes. *)
Definition classify_network (security_column : string) (network : strdict)
  : pydict :=
  let security_string :=
    match network !! security_column with Some s => s | None => "N/A" end in
  let ssid_string :=
    match network !! "SSID" with Some s => s | None => "" end in
  <["SSID_Type" := PStr (classify_ssid_type ssid_string)]>
    (<["Is_Secure" := PInt (classify_security (Some security_string))]>
       (PStr <$> network)).

(** The list written to [scan_results.json] on each platform. *)
Definition windows_scan (output timestamp : string) : list pydict :=
  map (classify_network "Authentication") (parse_windows_output output timestamp).

Definition linux_scan (output timestamp : string) : list pydict :=
  map (classify_network "Security") (parse_linux_output output timestamp).

End Bridge.

(** A listing of the Windows scan command. *)
Definition windows_listing : string :=
  String.concat (String "010" EmptyString)
    ["SSID 1 : CoffeeShop Guest";
     "    Authentication          : WPA2-Personal";
     "    BSSID 1                 : aa:bb:cc:dd:ee:ff";
     "         Signal             : 80%"].

(** A listing in columns, as the Linux parser expects it. *)
Definition linux_listing : string :=
  String.concat (String "010" EmptyString)
    ["BSSID  SSID  MODE  CHAN  RATE  SIGNAL  BARS  SECURITY";
     "AA:BB  HomeNet  Infra  6  54 Mbit/s  80  ****  WPA2"].

(** The value a run returned, or [default] when it raised. *)
Definition returned {A} (default : A) (run : traced A) : A :=
  match run.2 with
  | Return a => a
  | Raise _ => default
  end.

(** * Properties *)

(** ** The scoring pipeline *)

Local Open Scope float_scope.

Lemma assess_signal_never_raises (arts : artifacts) (raw : list float) :
  exists risk_level anomaly_score,
    assess_signal arts raw = Return (risk_level, anomaly_score).
Proof.
  unfold assess_signal.
  destruct (MODEL arts) as [m|]; [|by eauto].
  destruct (assess_signal_body arts raw) as [[risk sc]|e]; eauto.
Qed.

Lemma assess_signal_missing_artifact (arts : artifacts) (raw : list float) :
  SCALER arts = None \/ PCA arts = None \/ MODEL arts = None ->
  assess_signal arts raw = Return ("PROCESSING_ERROR", 999.0).
Proof.
  unfold assess_signal, assess_signal_body, call_method.
  intros H. destruct (MODEL arts) as [m|]; [|done].
  destruct (SCALER arts) as [s|]; [|done]. simpl.
  destruct (transform s [raw]) as [scaled|e]; [|done]. simpl.
  destruct (PCA arts) as [p|]; [|done].
  exfalso. destruct H as [H|[H|H]]; discriminate.
Qed.

Lemma assess_signal_catches (arts : artifacts) (raw : list float) (e : exn) :
  assess_signal_body arts raw = Raise e ->
  assess_signal arts raw = Return ("PROCESSING_ERROR", 999.0).
Proof.
  unfold assess_signal. intros ->. by destruct (MODEL arts).
Qed.

(** After the startup of [app.py], a load that failed leaves [MODEL]
    unset: it is the last of the three. *)
Lemma load_artifacts_failure (s p : load transformer) (m : load scorer)
    (arts : artifacts) :
  load_artifacts s p m = Some arts ->
  (forall sc pc md, (s, p, m) <> (Loaded sc, Loaded pc, Loaded md)) ->
  MODEL arts = None.
Proof.
  intros Hl Hf.
  destruct s as [sc| |], p as [pc| |], m as [md| |]; simpl in Hl;
    try discriminate; try (by inversion Hl).
  by destruct (Hf sc pc md).
Qed.

(** ** The Wi-Fi resolver *)

Section WifiFacts.

Variable py_float : string -> option float.
Variable float_repr : float -> string.
Variable arts : artifacts.

(** The run on a non-empty list, statement by statement. *)
Lemma process_wifi_data_cons (cn : pydict) (rest : list pydict) :
  process_wifi_data py_float float_repr arts (cn :: rest) =
  match ssid_value cn with
  | Raise e => ([], Raise e)
  | Return sl =>
      let p := profile (security_value float_repr cn) sl in
      let feats :=
        [rssi_mean (signal_percent py_float float_repr cn);
         p.1.1.1.1; p.1.1.1.2; p.1.1.2; p.1.2] in
      match assess_signal arts feats with
      | Raise e => ([EvScore feats], Raise e)
      | Return (risk, sc) =>
          match cn !! "SSID" with
          | None => ([EvScore feats], Raise (KeyError "SSID"))
          | Some v =>
              ([EvScore feats],
               Return {| result := risk;
                         score := sc;
                         raw_features := feats;
                         ssid := v;
                         networks := cn :: rest;
                         threat_tier :=
                           if String.eqb risk "THREAT" then "CRITICAL"
                           else p.2 |})
          end
      end
  end.
Proof.
  unfold process_wifi_data.
  destruct (ssid_value cn) as [sl|e]; [|done].
  simpl.
  destruct (profile _ sl) as [[[[v pr] ou] af] tier]. simpl.
  destruct (assess_signal arts _) as [[risk sc]|e]; [|done].
  simpl. unfold dict_index.
  by destruct (cn !! "SSID").
Qed.

Lemma ssid_value_inv (cn : pydict) (sl : string) :
  ssid_value cn = Return sl ->
  cn !! "SSID" = None /\ sl = ""
  \/ exists s, cn !! "SSID" = Some (PStr s) /\ sl = PyStr.lower s.
Proof.
  unfold ssid_value, dict_get, py_lower.
  destruct (cn !! "SSID") as [[| | | |s]|]; intros H; try discriminate;
    inversion H; eauto.
Qed.

Lemma process_wifi_data_returns (cn : pydict) (rest : list pydict) (s : string) :
  cn !! "SSID" = Some (PStr s) ->
  exists t rep,
    process_wifi_data py_float float_repr arts (cn :: rest) = (t, Return rep).
Proof.
  intros Hs. rewrite process_wifi_data_cons.
  unfold ssid_value, dict_get. rewrite Hs. simpl.
  destruct (assess_signal_never_raises arts
    [rssi_mean (signal_percent py_float float_repr cn);
     (profile (security_value float_repr cn) (PyStr.lower s)).1.1.1.1;
     (profile (security_value float_repr cn) (PyStr.lower s)).1.1.1.2;
     (profile (security_value float_repr cn) (PyStr.lower s)).1.1.2;
     (profile (security_value float_repr cn) (PyStr.lower s)).1.2])
    as (risk & sc & ->).
  eauto.
Qed.

(** What a returned report is made of. *)
Lemma process_wifi_data_returned (cn : pydict) (rest : list pydict)
    (t : list event) (rep : wifi_report) :
  process_wifi_data py_float float_repr arts (cn :: rest) = (t, Return rep) ->
  exists s sc,
    cn !! "SSID" = Some (PStr s)
    /\ let p := profile (security_value float_repr cn) (PyStr.lower s) in
       raw_features rep =
         [rssi_mean (signal_percent py_float float_repr cn);
          p.1.1.1.1; p.1.1.1.2; p.1.1.2; p.1.2]
       /\ t = [EvScore (raw_features rep)]
       /\ assess_signal arts (raw_features rep) = Return (result rep, sc)
       /\ score rep = sc
       /\ ssid rep = PStr s
       /\ networks rep = cn :: rest
       /\ threat_tier rep =
            if String.eqb (result rep) "THREAT" then "CRITICAL" else p.2.
Proof.
  rewrite process_wifi_data_cons.
  destruct (ssid_value cn) as [sl|e] eqn:Hsl; [|discriminate].
  cbv zeta.
  destruct (assess_signal arts _) as [[risk sc]|e] eqn:Ha; [|discriminate].
  destruct (cn !! "SSID") as [v|] eqn:Hv; [|discriminate].
  intros H. inversion H; subst; clear H. simpl.
  destruct (ssid_value_inv _ _ Hsl) as [[Hn _]|(s & Hs & ->)];
    [congruence|].
  assert (v = PStr s) as -> by congruence.
  exists s, sc. repeat split; auto.
Qed.

Lemma profile_tier (sv sl : string) :
  In (profile sv sl).2 ["LOW"; "MILD"; "HIGH"].
Proof.
  unfold profile.
  destruct (negb (is_secure sv)); [destruct (is_public_open _ _)|]; simpl; auto.
Qed.

(** C3: on the empty list the resolver returns the sentinel report
    (risk level NO_NETWORKS_FOUND, score 0.0, five features -1.0, ssid
    N/A, no networks, tier LOW) and its trace is empty: the scoring
    pipeline is not called. *)
Theorem empty_list_sentinel :
  process_wifi_data py_float float_repr arts [] =
  ([], Return {| result := "NO_NETWORKS_FOUND";
                 score := 0.0;
                 raw_features := [-1.0; -1.0; -1.0; -1.0; -1.0];
                 ssid := PStr "N/A";
                 networks := [];
                 threat_tier := "LOW" |}).
Proof. reflexivity. Qed.

(** C1: on a non-empty list whose first record names its SSID the
    resolver returns a report, and every report it returns carries the
    pipeline's risk level for the vector it built; its tier is CRITICAL
    when that level is THREAT, whichever of LOW, MILD and HIGH the rules
    chose, and the rules' tier otherwise. *)
Theorem reconciliation_rule (cn : pydict) (rest : list pydict) :
  (forall s, cn !! "SSID" = Some (PStr s) ->
     exists t rep,
       process_wifi_data py_float float_repr arts (cn :: rest) = (t, Return rep))
  /\ (forall t rep,
        process_wifi_data py_float float_repr arts (cn :: rest) = (t, Return rep) ->
        exists s risk_level anomaly_score,
          cn !! "SSID" = Some (PStr s)
          /\ t = [EvScore (raw_features rep)]
          /\ assess_signal arts (raw_features rep)
             = Return (risk_level, anomaly_score)
          /\ result rep = risk_level
          /\ let heuristic_tier :=
               (profile (security_value float_repr cn) (PyStr.lower s)).2 in
             In heuristic_tier ["LOW"; "MILD"; "HIGH"]
             /\ (risk_level = "THREAT" -> threat_tier rep = "CRITICAL")
             /\ (risk_level <> "THREAT" -> threat_tier rep = heuristic_tier)).
Proof.
  split; [apply process_wifi_data_returns|].
  intros t rep H.
  destruct (process_wifi_data_returned _ _ _ _ H)
    as (s & sc & Hs & Hf & Ht & Ha & _ & _ & _ & Htier).
  exists s, (result rep), sc. cbv zeta.
  repeat split; auto using profile_tier.
  - intros Hr. rewrite Htier, Hr. reflexivity.
  - intros Hr. rewrite Htier.
    destruct (String.eqb_spec (result rep) "THREAT"); [contradiction|done].
Qed.

(** C10: when the first record of a non-empty list has no SSID entry,
    the resolver builds the vector from the defaults, has it scored and
    then raises KeyError at the log line; it returns no report. *)
Theorem missing_ssid_raises_key_error (cn : pydict) (rest : list pydict) :
  cn !! "SSID" = None ->
  exists features,
    process_wifi_data py_float float_repr arts (cn :: rest)
    = ([EvScore features], Raise (KeyError "SSID"))
    /\ forall t rep,
         process_wifi_data py_float float_repr arts (cn :: rest)
         <> (t, Return rep).
Proof.
  intros Hs. rewrite process_wifi_data_cons.
  unfold ssid_value, dict_get. rewrite Hs. cbv zeta. simpl py_lower. cbv iota.
  match goal with
  | |- context [assess_signal arts ?v] =>
      destruct (assess_signal_never_raises arts v) as (risk & sc & ->);
      exists v
  end.
  split; [reflexivity|]. intros t rep H. discriminate.
Qed.

(** C7: every report returned for a non-empty list carries the vector
    built from the first record, which is also the vector that was
    scored: the first feature is -100 + signal_percent * 0.7, where
    signal_percent is the number read from the signal string without
    its percent signs and surrounding blanks, or 70.0 when that does
    not read as a number; the other four are 1.5, 10, 9, 0 with tier
    LOW for a secure network, 5.0, 30, 7, 0 with tier MILD for an open
    one with a public keyword in its name, and 25.0, 150, 1, 1 with
    tier HIGH for any other open one, the tier being the one reported
    unless the pipeline says THREAT. A report is returned whenever the
    first record names its SSID. *)
Theorem feature_vector_by_case (cn : pydict) (rest : list pydict) :
  (forall s, cn !! "SSID" = Some (PStr s) ->
     exists t rep,
       process_wifi_data py_float float_repr arts (cn :: rest) = (t, Return rep))
  /\ (forall t rep,
        process_wifi_data py_float float_repr arts (cn :: rest) = (t, Return rep) ->
        exists s,
          cn !! "SSID" = Some (PStr s)
          /\ t = [EvScore (raw_features rep)]
          /\ let authentication :=
               PyStr.lower (py_str float_repr
                 (dict_get cn "Authentication" (PStr "N/A"))) in
             let secure :=
               PyStr.contains "wpa" authentication
               || PyStr.contains "wpa2" authentication
               || PyStr.contains "wpa3" authentication in
             let public :=
               existsb (fun k => PyStr.contains k (PyStr.lower s))
                 ["guest"; "free"; "public"; "cafe"; "airport"; "hotel"] in
             let signal_percent :=
               match py_float (PyStr.strip (PyStr.remove_char "%"
                       (py_str float_repr
                          (dict_get cn "Signal (%)" (PStr "70%"))))) with
               | Some f => f
               | None => 70.0
               end in
             let rssi_mean := -100 + signal_percent * 0.7 in
             let heuristic tier :=
               threat_tier rep =
                 if String.eqb (result rep) "THREAT" then "CRITICAL" else tier in
             if secure then
               raw_features rep = [rssi_mean; 1.5; 10; 9; 0] /\ heuristic "LOW"
             else if public then
               raw_features rep = [rssi_mean; 5.0; 30; 7; 0] /\ heuristic "MILD"
             else
               raw_features rep = [rssi_mean; 25.0; 150; 1; 1] /\ heuristic "HIGH").
Proof.
  split; [apply process_wifi_data_returns|].
  intros t rep H.
  destruct (process_wifi_data_returned _ _ _ _ H)
    as (s & sc & Hs & Hf & Ht & _ & _ & _ & _ & Htier).
  exists s. split; [exact Hs|]. split; [exact Ht|].
  cbv zeta. rewrite Hf, Htier. clear.
  unfold profile, is_public_open, is_secure, public_keywords,
    security_value, rssi_mean, signal_percent, signal_percent_str.
  destruct (_ || _ || _); simpl negb; cbv iota; [done|].
  rewrite andb_true_l.
  destruct (existsb _ _); done.
Qed.

End WifiFacts.

(** The open network of scenario C, scored as a threat: tier CRITICAL,
    not HIGH. *)
Lemma reconciliation_rule_witness :
  exists rep,
    process_wifi_data float_of_digits repr_whole_float flagging_artifacts
      [scenario_C] = ([EvScore (raw_features rep)], Return rep)
    /\ result rep = "THREAT"
    /\ threat_tier rep = "CRITICAL".
Proof.
  destruct (reconciliation_rule float_of_digits repr_whole_float
              flagging_artifacts scenario_C []) as [Hret Hrule].
  destruct (Hret "xyz123") as (t & rep & H); [vm_compute; reflexivity|].
  destruct (Hrule t rep H)
    as (s & risk & sc & _ & Ht & Ha & Hr & _ & Hthreat & _).
  exists rep. subst t.
  vm_compute in Ha. inversion Ha; subst risk.
  repeat split; auto.
Defined.

(** A first record without SSID: the vector is scored, then KeyError. *)
Lemma missing_ssid_raises_key_error_witness :
  nameless_record !! "SSID" = None
  /\ exists features,
       process_wifi_data float_of_digits repr_whole_float no_artifacts
         [nameless_record] = ([EvScore features], Raise (KeyError "SSID")).
Proof.
  split; [vm_compute; reflexivity|].
  destruct (missing_ssid_raises_key_error float_of_digits repr_whole_float
              no_artifacts nameless_record []) as (features & H & _);
    [vm_compute; reflexivity|].
  exists features. exact H.
Defined.

(** Scenario A: a secure network at 80% gives [-44.0, 1.5, 10, 9, 0]
    and, the pipeline not saying THREAT, tier LOW. *)
Lemma feature_vector_by_case_witness :
  exists t rep,
    process_wifi_data float_of_digits repr_whole_float no_artifacts
      [scenario_A] = (t, Return rep)
    /\ raw_features rep = [-44; 1.5; 10; 9; 0]
    /\ threat_tier rep = "LOW".
Proof.
  destruct (feature_vector_by_case float_of_digits repr_whole_float
              no_artifacts scenario_A []) as [Hret Hcase].
  destruct (Hret "HomeNet") as (t & rep & H); [vm_compute; reflexivity|].
  destruct (Hcase t rep H) as (s & Hs & _ & Hc).
  assert (s = "HomeNet") as -> by (vm_compute in Hs; congruence).
  assert (result rep = "PROCESSING_ERROR") as Hr
    by (vm_compute in H; inversion H; reflexivity).
  rewrite Hr in Hc. vm_compute in Hc. destruct Hc as [Hf Htier].
  exists t, rep. repeat split; assumption.
Defined.

(** ** The two scorers side by side *)

(** The server's scorer fails open after a startup that lost an artifact. *)
Lemma assess_signal_fail_open (s p : load transformer) (m : load scorer)
    (arts : artifacts) (raw : list float) :
  load_artifacts s p m = Some arts ->
  (forall sc pc md, (s, p, m) <> (Loaded sc, Loaded pc, Loaded md)) ->
  assess_signal arts raw = Return ("PROCESSING_ERROR", 999.0).
Proof.
  intros Hl Hf. apply assess_signal_missing_artifact.
  right; right. eapply load_artifacts_failure; eauto.
Qed.

(** C2: the standalone scorer departs from the contract the server's
    scorer keeps. With the model files missing its startup leaves the
    three globals at None and every call answers ("ERROR", 999.0), not
    PROCESSING_ERROR; with artifacts whose scaler rejects the input the
    ValueError reaches the caller. On the same two inputs the server's
    scorer answers ("PROCESSING_ERROR", 999.0). *)
Theorem assess_live_signal_departs (raw : list float) :
  (forall p m, LivePrediction.load_artifacts NotFound p m = Some no_artifacts)
  /\ LivePrediction.assess_live_signal no_artifacts raw = Return ("ERROR", 999.0)
  /\ LivePrediction.assess_live_signal rejecting_artifacts raw = Raise ValueError
  /\ assess_signal no_artifacts raw = Return ("PROCESSING_ERROR", 999.0)
  /\ assess_signal rejecting_artifacts raw = Return ("PROCESSING_ERROR", 999.0).
Proof. repeat split. Qed.

(** ** The watcher *)

Lemma get_latest_data_unreadable {A} (reads : nat -> read_attempt A) :
  (forall attempt, (attempt < MAX_FILE_READ_ATTEMPTS)%nat ->
     reads attempt = Unreadable) ->
  get_latest_data reads = None.
Proof.
  intros H. unfold get_latest_data, MAX_FILE_READ_ATTEMPTS in *. simpl.
  rewrite !H by lia. reflexivity.
Qed.

Lemma get_latest_data_absent {A} (reads : nat -> read_attempt A) :
  reads 0%nat = FileAbsent -> get_latest_data reads = None.
Proof. intros H. unfold get_latest_data. simpl. by rewrite H. Qed.

Section WatcherFacts.

Variable py_float : string -> option float.
Variable float_repr : float -> string.
Variable arts : artifacts.

Lemma truthy_None (payload : option (list pydict)) :
  truthy payload = None <-> payload = None \/ payload = Some [].
Proof.
  destruct payload as [[|n ns]|]; simpl; split; intros H; auto;
    try discriminate; destruct H; discriminate.
Qed.

(** One pass, outcome by outcome. *)
Lemma tick_cases (env : tick_env) (last_modified_time : float) :
  tick py_float float_repr arts env last_modified_time =
  match getmtime env with
  | Raise _ => (last_modified_time, [EvSleep 5])
  | Return current =>
      if last_modified_time <? current then
        match truthy (get_latest_data (scan_reads env)) with
        | None => (last_modified_time, [EvFetch WIFI_DATA_FILE; EvSleep 1])
        | Some nets =>
            match process_wifi_data py_float float_repr arts nets with
            | (t, Raise _) =>
                (last_modified_time, EvFetch WIFI_DATA_FILE :: t ++ [EvSleep 5])
            | (t, Return report) =>
                match emit env report with
                | Return _ =>
                    (current,
                     EvFetch WIFI_DATA_FILE :: t
                       ++ [EvEmit "new_wifi_data" report; EvSleep 1])
                | Raise _ =>
                    (last_modified_time,
                     EvFetch WIFI_DATA_FILE :: t
                       ++ [EvEmit "new_wifi_data" report; EvSleep 5])
                end
            end
        end
      else (last_modified_time, [EvSleep 1])
  end.
Proof.
  unfold tick, tick_body, get_latest_scan_data, lift, tell.
  destruct (getmtime env) as [current|e]; [|reflexivity].
  cbn -[process_wifi_data get_latest_data].
  destruct (last_modified_time <? current); [|reflexivity].
  cbn -[process_wifi_data get_latest_data].
  destruct (truthy (get_latest_data (scan_reads env))) as [nets|];
    [|reflexivity].
  cbn -[process_wifi_data].
  destruct (process_wifi_data py_float float_repr arts nets)
    as [t [report|e]]; cbn.
  - destruct (emit env report) as [u|e]; cbn;
      rewrite <- app_assoc; reflexivity.
  - reflexivity.
Qed.

Lemma truthy_Some (payload : option (list pydict)) (nets : list pydict) :
  truthy payload = Some nets -> payload = Some nets /\ nets <> [].
Proof.
  destruct payload as [[|n ns]|]; simpl; intros H; inversion H; done.
Qed.

(** A pass that moves the marker fetched a non-empty list, had a report
    computed from it and emitted it. *)
Lemma tick_marker_moves (env : tick_env) (last_modified_time : float) :
  (tick py_float float_repr arts env last_modified_time).1 <> last_modified_time ->
  exists current nets t report,
    getmtime env = Return current
    /\ (last_modified_time <? current) = true
    /\ get_latest_data (scan_reads env) = Some nets
    /\ nets <> []
    /\ process_wifi_data py_float float_repr arts nets = (t, Return report)
    /\ tick py_float float_repr arts env last_modified_time
       = (current,
          EvFetch WIFI_DATA_FILE :: t
            ++ [EvEmit "new_wifi_data" report; EvSleep 1]).
Proof.
  rewrite tick_cases.
  destruct (getmtime env) as [current|e]; [|done].
  destruct (last_modified_time <? current) eqn:Hlt; [|done].
  destruct (truthy (get_latest_data (scan_reads env))) as [nets|] eqn:Hd;
    [|done].
  apply truthy_Some in Hd as [Hd Hn].
  destruct (process_wifi_data py_float float_repr arts nets)
    as [t [report|e]] eqn:Hp; [|done].
  destruct (emit env report) as [u|e]; [|done].
  intros _. exists current, nets, t, report. done.
Qed.

(** C4: in a pass where the file's modification time is newer than the
    marker and the fetch gives nothing or an empty list, the marker
    stays as it was and nothing is emitted, so the next pass, seeing
    the same modification time, fetches again; and a pass changes the
    marker only when it fetched a non-empty list and processed it. *)
Theorem marker_kept_on_empty_payload (env : tick_env)
    (last_modified_time current : float) :
  getmtime env = Return current ->
  (last_modified_time <? current) = true ->
  get_latest_data (scan_reads env) = None
  \/ get_latest_data (scan_reads env) = Some [] ->
  let after := tick py_float float_repr arts env last_modified_time in
  after = (last_modified_time, [EvFetch WIFI_DATA_FILE; EvSleep 1])
  /\ (forall env', getmtime env' = Return current ->
        exists t, (tick py_float float_repr arts env' after.1).2
                  = EvFetch WIFI_DATA_FILE :: t)
  /\ (forall env' marker,
        (tick py_float float_repr arts env' marker).1 <> marker ->
        exists nets t report,
          get_latest_data (scan_reads env') = Some nets
          /\ nets <> []
          /\ process_wifi_data py_float float_repr arts nets = (t, Return report)).
Proof.
  intros Hm Hlt Hd.
  assert (tick py_float float_repr arts env last_modified_time
          = (last_modified_time, [EvFetch WIFI_DATA_FILE; EvSleep 1])) as Hafter.
  { rewrite tick_cases, Hm, Hlt.
    apply truthy_None in Hd. by rewrite Hd. }
  cbv zeta. rewrite Hafter. split; [reflexivity|]. split.
  - intros env' Hm'. rewrite tick_cases, Hm'.
    change ((last_modified_time, [EvFetch WIFI_DATA_FILE; EvSleep 1]).1)
      with last_modified_time.
    rewrite Hlt.
    destruct (truthy (get_latest_data (scan_reads env'))) as [nets|];
      [|by eauto].
    destruct (process_wifi_data py_float float_repr arts nets)
      as [t [report|e]]; [|by eauto].
    destruct (emit env' report) as [u|e]; by eauto.
  - intros env' marker Hne.
    destruct (tick_marker_moves env' marker Hne)
      as (c & nets & t & report & _ & _ & Hd' & Hn & Hp & _).
    exists nets, t, report. done.
Qed.

(** Two passes of the loop over the same newer file, the first of which
    fetched nothing: the marker is still the old one and the second pass
    fetched again. *)
Lemma check_for_file_updates_retries (env env' : tick_env)
    (last_modified_time current : float) :
  getmtime env = Return current ->
  getmtime env' = Return current ->
  (last_modified_time <? current) = true ->
  truthy (get_latest_data (scan_reads env)) = None ->
  truthy (get_latest_data (scan_reads env')) = None ->
  check_for_file_updates py_float float_repr arts [env; env'] last_modified_time
  = (last_modified_time,
     [EvFetch WIFI_DATA_FILE; EvSleep 1; EvFetch WIFI_DATA_FILE; EvSleep 1]).
Proof.
  intros Hm Hm' Hlt Hd Hd'. unfold check_for_file_updates.
  rewrite (tick_cases env), Hm, Hlt, Hd.
  rewrite (tick_cases env'), Hm', Hlt, Hd'. reflexivity.
Qed.

End WatcherFacts.

Lemma marker_kept_on_empty_payload_witness :
  tick float_of_digits repr_whole_float no_artifacts unparseable_env 100
  = (100, [EvFetch WIFI_DATA_FILE; EvSleep 1]).
Proof.
  destruct (marker_kept_on_empty_payload float_of_digits repr_whole_float
              no_artifacts unparseable_env 100 200) as [H _];
    [reflexivity | reflexivity | left; reflexivity | exact H].
Defined.

(** ** The Bluetooth endpoint *)

Lemma SFcompare_antisym (a b : spec_float) (c : comparison) :
  SFcompare a b = Some c -> SFcompare b a = Some (CompOpp c).
Proof.
  destruct a as [sa|sa| |sa ma ea], b as [sb|sb| |sb mb eb]; simpl;
    intros H; try discriminate;
    try (destruct sa; inversion H; reflexivity);
    try (destruct sb; inversion H; reflexivity);
    try (destruct sa, sb; inversion H; reflexivity).
  destruct sa, sb; inversion H; clear H; try reflexivity;
    rewrite (Z.compare_antisym ea eb);
    destruct (ea ?= eb)%Z; simpl; try reflexivity;
    change (Pos.compare_cont Eq mb ma) with (Pos.compare mb ma);
    change (Pos.compare_cont Eq ma mb) with (Pos.compare ma mb);
    rewrite (Pos.compare_antisym ma mb); reflexivity.
Qed.

Lemma leb_not_ltb (x y : float) :
  (x <=? y) = true -> (y <? x) = false.
Proof.
  rewrite leb_spec, ltb_spec. unfold SFleb, SFltb.
  destruct (SFcompare (Prim2SF x) (Prim2SF y)) as [c|] eqn:Hc; [|discriminate].
  rewrite (SFcompare_antisym _ _ _ Hc). by destruct c.
Qed.

Lemma int_le_limit (z : Z) :
  int_le_float z BT_PROXIMITY_LIMIT = true <-> (z <= 10)%Z.
Proof.
  unfold int_le_float.
  replace (Prim2SF BT_PROXIMITY_LIMIT)
    with (S754_finite false 5629499534213120 (-49)) by (vm_compute; reflexivity).
  cbv iota beta zeta.
  replace (0 <=? -49)%Z with false by reflexivity.
  rewrite Z.leb_le.
  change (- -49)%Z with 49%Z.
  replace (Z.pos 5629499534213120) with (10 * 2 ^ 49)%Z by reflexivity.
  assert (0 < 2 ^ 49)%Z by reflexivity. nia.
Qed.

Lemma within_limit_not_exceeds (v : pyval) :
  py_le_float v BT_PROXIMITY_LIMIT = Return true -> ~ exceeds_limit v.
Proof.
  destruct v as [|b|z|f|s]; simpl; intros H; try discriminate; auto.
  - assert (int_le_float z BT_PROXIMITY_LIMIT = true) as Hz by congruence.
    apply int_le_limit in Hz. lia.
  - assert ((f <=? BT_PROXIMITY_LIMIT) = true) as Hf by congruence.
    rewrite (leb_not_ltb _ _ Hf). intros Hgt. discriminate Hgt.
Qed.

Lemma kept_has_distance (device : pydict) :
  py_le_float (dict_get device "distance_m" (PFloat (BT_PROXIMITY_LIMIT + 1)))
    BT_PROXIMITY_LIMIT = Return true ->
  exists v, device !! "distance_m" = Some v
            /\ py_le_float v BT_PROXIMITY_LIMIT = Return true.
Proof.
  unfold dict_get. destruct (device !! "distance_m") as [v|]; [by eauto|].
  intros H. vm_compute in H. discriminate H.
Qed.

Lemma filter_devices_sound (devs out : list pydict) :
  filter_devices devs = Return out ->
  forall device, In device out ->
    In device devs
    /\ py_le_float (dict_get device "distance_m" (PFloat (BT_PROXIMITY_LIMIT + 1)))
         BT_PROXIMITY_LIMIT = Return true.
Proof.
  revert out. induction devs as [|d devs IH]; intros out H device Hin.
  - inversion H; subst. destruct Hin.
  - cbn -[BT_PROXIMITY_LIMIT PrimFloat.add] in H.
    destruct (py_le_float _ _) as [keep|e] eqn:Hk; [|discriminate].
    cbn -[BT_PROXIMITY_LIMIT PrimFloat.add] in H.
    destruct (filter_devices devs) as [rest'|e]; [|discriminate].
    cbn in H. inversion H; subst; clear H.
    destruct keep.
    + destruct Hin as [<-|Hin]; [by split; [left|]|].
      destruct (IH _ eq_refl _ Hin). split; [by right|done].
    + destruct (IH _ eq_refl _ Hin). split; [by right|done].
Qed.

Lemma filter_devices_total (devs : list pydict) :
  Forall well_formed_device devs ->
  exists out, filter_devices devs = Return out
              /\ Forall well_formed_device out.
Proof.
  induction 1 as [|d devs Hd _ (rest' & IH & Hwf)]; [by exists []|].
  cbn -[BT_PROXIMITY_LIMIT PrimFloat.add]. rewrite IH.
  assert (exists keep,
    py_le_float (dict_get d "distance_m" (PFloat (BT_PROXIMITY_LIMIT + 1)))
      BT_PROXIMITY_LIMIT = Return keep) as (keep & ->).
  { destruct Hd as [_ Hd]. unfold dict_get.
    destruct (d !! "distance_m") as [[|b|z|f|s]|]; simpl; try done; eauto. }
  cbn. destruct keep; eauto.
Qed.

Lemma max_threat_loop_total (filtered : list pydict) (max_threat : string) :
  Forall well_formed_device filtered ->
  exists worst, max_threat_loop filtered max_threat = Return worst.
Proof.
  intros H. revert max_threat.
  induction H as [|d l [[st Hst] _] _ IH]; intros max_threat; [by eexists|].
  cbn. unfold dict_index. rewrite Hst. cbn.
  destruct (py_eq_str st "CRITICAL"); [by eexists|].
  destruct (py_eq_str st "HIGH"); apply IH.
Qed.

(** C8: whenever the Bluetooth endpoint answers, every device in the
    report has a stored distance that is within the proximity limit of
    10.0 m, so none that is strictly greater; the worst tier is computed
    from these devices only, and their number is the one reported. It
    answers whenever the entries of the document are well formed. *)
Theorem proximity_filter (now : string) (bt_raw_data : option bt_raw) :
  ((forall d l, bt_raw_data = Some d -> bt_devices d = Some l ->
      Forall well_formed_device l) ->
   exists rep, bluetooth_scan_endpoint now bt_raw_data = Return rep)
  /\ forall rep,
       bluetooth_scan_endpoint now bt_raw_data = Return rep ->
       (forall device, In device (devices rep) ->
          exists v, device !! "distance_m" = Some v
                    /\ py_le_float v BT_PROXIMITY_LIMIT = Return true
                    /\ ~ exceeds_limit v)
       /\ max_threat_loop (devices rep) "LOW" = Return (max_threat rep)
       /\ devices_detected rep = length (devices rep).
Proof.
  unfold bluetooth_scan_endpoint.
  destruct bt_raw_data as [d|]; [|split; [by eauto|]].
  2: { intros rep H. inversion H; subst. simpl. repeat split; by intros ? []. }
  destruct (bt_empty d); [split; [by eauto|]|].
  { intros rep H. inversion H; subst. simpl. repeat split; by intros ? []. }
  split.
  - intros Hwf.
    assert (Forall well_formed_device
              (match bt_devices d with Some l => l | None => [] end)) as Hl.
    { destruct (bt_devices d) as [l|] eqn:Hb;
        [exact (Hwf d l eq_refl Hb)|constructor]. }
    destruct (filter_devices_total _ Hl) as (out & -> & Hout).
    destruct (max_threat_loop_total out "LOW" Hout) as (worst & Hw).
    cbn. rewrite Hw. cbn. eauto.
  - intros rep H.
    destruct (filter_devices _) as [out|e] eqn:Hf; [|discriminate].
    cbn in H.
    destruct (max_threat_loop out "LOW") as [worst|e] eqn:Hw; [|discriminate].
    cbn in H. inversion H; subst; clear H. simpl.
    repeat split; auto.
    intros device Hin.
    destruct (filter_devices_sound _ _ Hf _ Hin) as [_ Hk].
    destruct (kept_has_distance _ Hk) as (v & Hv & Hle).
    exists v. auto using within_limit_not_exceeds.
Qed.

(** Of a device at 2.5 m, one at 12.0 m and one without a distance, only
    the first is reported, and the worst tier is its own. *)
Lemma proximity_filter_witness :
  exists rep,
    bluetooth_scan_endpoint "2026-01-01 00:00:00" (Some three_devices) = Return rep
    /\ devices rep = [device_near]
    /\ max_threat rep = "HIGH"
    /\ forall device, In device (devices rep) ->
         exists v, device !! "distance_m" = Some v /\ ~ exceeds_limit v.
Proof.
  destruct (proximity_filter "2026-01-01 00:00:00" (Some three_devices))
    as [_ Hrep].
  eexists. split; [vm_compute; reflexivity|].
  split; [reflexivity|]. split; [reflexivity|].
  intros device Hin.
  destruct (Hrep _ eq_refl) as [Hd _].
  destruct (Hd device Hin) as (v & Hv & _ & Hn). eauto.
Defined.

(** ** The Bluetooth model *)

Local Close Scope float_scope.

Section BluetoothFacts.

Import Bluetooth.
Local Open Scope R_scope.

Lemma calculate_distance_at_or_above (rssi : R) :
  rssi >= RSSI_AT_1M -> calculate_distance rssi = 0.1.
Proof.
  intros H. unfold calculate_distance.
  destruct (Rge_dec rssi RSSI_AT_1M); [reflexivity|contradiction].
Qed.

Lemma calculate_distance_below (rssi : R) :
  rssi < RSSI_AT_1M ->
  calculate_distance rssi
  = Rpower 10 ((RSSI_AT_1M - rssi) / (10.0 * PATH_LOSS_EXPONENT)).
Proof.
  intros H. unfold calculate_distance.
  destruct (Rge_dec rssi RSSI_AT_1M) as [Hge|_]; [|reflexivity].
  exfalso. lra.
Qed.




Lemma audio_video_class (name : string) :
  get_major_class_from_name name = MAJOR_CLASS_AUDIO_VIDEO
  <-> PyStr.contains "mic" (PyStr.lower name)
      || PyStr.contains "headset" (PyStr.lower name)
      || PyStr.contains "speaker" (PyStr.lower name) = true.
Proof.
  unfold get_major_class_from_name.
  destruct name as [|c r]; [by split|].
  destruct (_ || _ || _); by split.
Qed.

(** C6: the first row of the tiering table decides. A device closer
    than 0.5 m that is of the audio/video class, which is the class of
    the names containing mic, headset or speaker in any letter case, or
    whose name contains sniffer or mic, gets status CRITICAL; so does
    Wireless Mic heard at -40 dBm. *)
Theorem proximate_audio_is_critical (rssi : R) (name : string) :
  calculate_distance rssi < 0.5 ->
  (exists k, In k ["mic"; "headset"; "speaker"; "sniffer"]
             /\ PyStr.contains k (PyStr.lower name) = true) ->
  status (assess_bluetooth_threat rssi (get_major_class_from_name name) name)
  = "CRITICAL"
  /\ perform_scan_and_assess [("address", (name, rssi))]
     = [("address",
         {| status := "CRITICAL";
            distance := calculate_distance rssi;
            rssi_dbm := rssi;
            description := ProximateAudioVideo;
            device_type_code := get_major_class_from_name name;
            device_name := name |})].
Proof.
  intros Hd (k & Hk & Hc).
  assert ((get_major_class_from_name name =? MAJOR_CLASS_AUDIO_VIDEO)%Z
          || PyStr.contains "sniffer" (PyStr.lower name)
          || PyStr.contains "mic" (PyStr.lower name) = true) as Hrow.
  { simpl in Hk.
    destruct Hk as [<-|[<-|[<-|[<-|[]]]]].
    - rewrite Hc. by rewrite orb_true_r.
    - replace (get_major_class_from_name name) with MAJOR_CLASS_AUDIO_VIDEO;
        [reflexivity|].
      symmetry. apply audio_video_class. rewrite Hc.
      by rewrite orb_true_r.
    - replace (get_major_class_from_name name) with MAJOR_CLASS_AUDIO_VIDEO;
        [reflexivity|].
      symmetry. apply audio_video_class. rewrite Hc.
      by rewrite orb_true_r.
    - rewrite Hc. by rewrite orb_true_r. }
  unfold perform_scan_and_assess, assess_bluetooth_threat. simpl map.
  destruct (Rlt_dec (calculate_distance rssi) 0.5) as [_|Hn];
    [|contradiction].
  rewrite Hrow. split; reflexivity.
Qed.

End BluetoothFacts.



(** Scenario D: Wireless Mic at -40 dBm. *)
Lemma proximate_audio_is_critical_witness :
  Bluetooth.status
    (Bluetooth.assess_bluetooth_threat (-40)
       (Bluetooth.get_major_class_from_name "Wireless Mic") "Wireless Mic")
  = "CRITICAL".
Proof.
  apply (proximate_audio_is_critical (-40) "Wireless Mic").
  - rewrite calculate_distance_at_or_above;
      [lra | unfold Bluetooth.RSSI_AT_1M; lra].
  - exists "mic". split; [simpl; auto | vm_compute; reflexivity].
Defined.

(** * Further properties *)

Local Open Scope float_scope.

(** ** Order of binary64 numbers *)

Lemma SFltb_trans (a b c : spec_float) :
  SFltb a b = true -> SFltb b c = true -> SFltb a c = true.
Proof.
  unfold SFltb.
  destruct a as [sa|sa| |sa ma ea], b as [sb|sb| |sb mb eb],
    c as [sc|sc| |sc mc ec]; simpl;
    repeat match goal with s : bool |- _ => destruct s end; simpl;
    try discriminate; try reflexivity.
  - destruct (Z.compare_spec ea eb), (Z.compare_spec eb ec),
      (Z.compare_spec ea ec); simpl; try discriminate; try reflexivity;
      try lia; subst;
      change (Pos.compare_cont Eq ?x ?y) with (Pos.compare x y) in *;
      destruct (Pos.compare_spec ma mb), (Pos.compare_spec mb mc),
        (Pos.compare_spec ma mc); simpl; try discriminate; try reflexivity;
        try lia.
  - destruct (Z.compare_spec ea eb), (Z.compare_spec eb ec),
      (Z.compare_spec ea ec); simpl; try discriminate; try reflexivity;
      try lia; subst;
      change (Pos.compare_cont Eq ?x ?y) with (Pos.compare x y) in *;
      destruct (Pos.compare_spec ma mb), (Pos.compare_spec mb mc),
        (Pos.compare_spec ma mc); simpl; try discriminate; try reflexivity;
        try lia.
Qed.

Lemma float_ltb_trans (x y z : float) :
  (x <? y) = true -> (y <? z) = true -> (x <? z) = true.
Proof. rewrite !ltb_spec. apply SFltb_trans. Qed.

Lemma float_ltb_irrefl (x : float) : (x <? x) = false.
Proof.
  rewrite ltb_spec. unfold SFltb.
  destruct (Prim2SF x) as [s|s| |s m e]; simpl; try reflexivity;
    destruct s; try reflexivity;
    rewrite Z.compare_refl;
    change (Pos.compare_cont Eq m m) with (Pos.compare m m);
    rewrite Pos.compare_refl; reflexivity.
Qed.

(** ** Reading with retries *)

(** X1: the data of the first attempt that parses is returned, when the
    attempts before it were unreadable and it is one of the first five. *)
Theorem get_latest_data_first_parse {A} (reads : nat -> read_attempt A)
    (k : nat) (data : A) :
  (k < MAX_FILE_READ_ATTEMPTS)%nat ->
  (forall attempt, (attempt < k)%nat -> reads attempt = Unreadable) ->
  reads k = Parsed data ->
  get_latest_data reads = Some data.
Proof.
  unfold get_latest_data, MAX_FILE_READ_ATTEMPTS. intros Hk Hbefore Hparsed.
  do 5 (destruct k as [|k];
        [simpl; rewrite ?Hbefore by lia; rewrite Hparsed; reflexivity|]).
  lia.
Qed.

Lemma get_latest_data_first_parse_witness :
  get_latest_data third_time_lucky = Some [scenario_A].
Proof.
  apply (get_latest_data_first_parse third_time_lucky 2).
  - unfold MAX_FILE_READ_ATTEMPTS. lia.
  - intros attempt H. destruct attempt as [|[|attempt]]; [reflexivity..|lia].
  - reflexivity.
Defined.

Lemma get_latest_data_from_agree {A} (reads reads' : nat -> read_attempt A)
    (left attempt : nat) :
  (forall i, (attempt <= i < attempt + left)%nat -> reads i = reads' i) ->
  get_latest_data_from reads attempt left
  = get_latest_data_from reads' attempt left.
Proof.
  revert attempt. induction left as [|left IH]; intros attempt H; [reflexivity|].
  simpl. rewrite <- (H attempt) by lia.
  destruct (reads attempt); try reflexivity.
  apply IH. intros i Hi. apply H. lia.
Qed.

(** X2: the read never looks past the fifth attempt: two files that
    behave alike on the first five attempts give the same result, so a
    file that would parse at the sixth attempt reads as nothing. *)
Theorem get_latest_data_bounded {A} (reads reads' : nat -> read_attempt A) :
  (forall attempt, (attempt < MAX_FILE_READ_ATTEMPTS)%nat ->
     reads attempt = reads' attempt) ->
  get_latest_data reads = get_latest_data reads'.
Proof.
  intros H. apply get_latest_data_from_agree. intros i Hi. apply H. lia.
Qed.

Lemma get_latest_data_bounded_witness :
  get_latest_data
    (fun attempt => if (attempt <? 5)%nat then Unreadable else Parsed [scenario_A])
  = None.
Proof.
  transitivity (get_latest_data
                  (fun _ : nat => @Unreadable (list pydict))); [|reflexivity].
  apply get_latest_data_bounded.
  intros attempt H. unfold MAX_FILE_READ_ATTEMPTS in H.
  destruct (Nat.ltb_spec attempt 5); [reflexivity|lia].
Defined.

(** ** More on the Wi-Fi resolver *)

Section ResolverFacts.

Variable py_float : string -> option float.
Variable float_repr : float -> string.
Variable arts : artifacts.

Lemma process_wifi_data_no_ssid (cn : pydict) (rest : list pydict) :
  cn !! "SSID" = None ->
  exists features,
    process_wifi_data py_float float_repr arts (cn :: rest)
    = ([EvScore features], Raise (KeyError "SSID")).
Proof.
  intros Hs. rewrite process_wifi_data_cons.
  unfold ssid_value, dict_get. rewrite Hs. cbv zeta. simpl py_lower. cbv iota.
  match goal with
  | |- context [assess_signal arts ?v] =>
      destruct (assess_signal_never_raises arts v) as (risk & sc & ->);
      exists v
  end.
  reflexivity.
Qed.

(** The resolver leaves nothing in the trace but the one scoring call. *)
Lemma process_wifi_data_trace (nets : list pydict) :
  (process_wifi_data py_float float_repr arts nets).1 = []
  \/ exists features,
       (process_wifi_data py_float float_repr arts nets).1 = [EvScore features].
Proof.
  destruct nets as [|cn rest]; [by left|].
  rewrite process_wifi_data_cons.
  destruct (ssid_value cn) as [sl|e]; [|by left].
  cbv zeta.
  destruct (assess_signal arts _) as [[risk sc]|e]; [|by eauto].
  destruct (cn !! "SSID"); eauto.
Qed.

(** X3: when the first record has an SSID entry that is not a string (a
    number, a boolean, null), the resolver raises AttributeError before
    anything is scored. *)
Theorem non_string_ssid_raises (cn : pydict) (rest : list pydict) (v : pyval) :
  cn !! "SSID" = Some v ->
  (forall s, v <> PStr s) ->
  process_wifi_data py_float float_repr arts (cn :: rest)
  = ([], Raise (AttributeError "lower")).
Proof.
  intros Hv Hn. rewrite process_wifi_data_cons.
  unfold ssid_value, dict_get. rewrite Hv.
  destruct v as [|b|z|f|s]; try reflexivity.
  by destruct (Hn s).
Qed.

(** X4: only the first record is assessed. The records after it change
    nothing in the report but its echo of the list: trace, risk level,
    score, vector, SSID and tier are the same. *)
Theorem only_first_record_assessed (cn : pydict) (rest rest' : list pydict)
    (t : list event) (rep : wifi_report) :
  process_wifi_data py_float float_repr arts (cn :: rest) = (t, Return rep) ->
  networks rep = cn :: rest
  /\ process_wifi_data py_float float_repr arts (cn :: rest')
     = (t, Return {| result := result rep;
                     score := score rep;
                     raw_features := raw_features rep;
                     ssid := ssid rep;
                     networks := cn :: rest';
                     threat_tier := threat_tier rep |}).
Proof.
  rewrite !process_wifi_data_cons.
  destruct (ssid_value cn) as [sl|e]; [|discriminate].
  cbv zeta.
  destruct (assess_signal arts _) as [[risk sc]|e]; [|discriminate].
  destruct (cn !! "SSID") as [v|]; [|discriminate].
  intros H. inversion H; subst; clear H. simpl. split; reflexivity.
Qed.

(** X5: with an artifact missing the resolver still answers for a record
    that names its SSID: the risk level is PROCESSING_ERROR, the score
    999.0, and the tier is the one of the rules, never CRITICAL. *)
Theorem resolver_without_model (cn : pydict) (rest : list pydict) (s : string) :
  SCALER arts = None \/ PCA arts = None \/ MODEL arts = None ->
  cn !! "SSID" = Some (PStr s) ->
  exists t rep,
    process_wifi_data py_float float_repr arts (cn :: rest) = (t, Return rep)
    /\ result rep = "PROCESSING_ERROR"
    /\ score rep = 999.0
    /\ threat_tier rep = (profile (security_value float_repr cn) (PyStr.lower s)).2
    /\ threat_tier rep <> "CRITICAL".
Proof.
  intros Hmiss Hs. rewrite process_wifi_data_cons.
  unfold ssid_value, dict_get. rewrite Hs. simpl py_lower. cbv iota zeta.
  rewrite (assess_signal_missing_artifact arts _ Hmiss).
  eexists _, _. split; [reflexivity|]. simpl.
  repeat split.
  pose proof (profile_tier (security_value float_repr cn) (PyStr.lower s)) as Hin.
  intros Hc. rewrite Hc in Hin. simpl in Hin.
  destruct Hin as [H|[H|[H|[]]]]; discriminate H.
Qed.

End ResolverFacts.

Lemma non_string_ssid_raises_witness :
  process_wifi_data float_of_digits repr_whole_float flagging_artifacts
    [numbered_record; scenario_A]
  = ([], Raise (AttributeError "lower")).
Proof.
  apply (non_string_ssid_raises _ _ _ numbered_record [scenario_A] (PInt 5)).
  - vm_compute. reflexivity.
  - intros s H. discriminate H.
Defined.

Lemma only_first_record_assessed_witness :
  exists t rep,
    process_wifi_data float_of_digits repr_whole_float flagging_artifacts
      [scenario_A; scenario_C] = (t, Return rep)
    /\ threat_tier rep = "CRITICAL"
    /\ raw_features rep = [-44; 1.5; 10; 9; 0].
Proof.
  destruct (only_first_record_assessed float_of_digits repr_whole_float
              flagging_artifacts scenario_A [] [scenario_C]
              [EvScore [-44; 1.5; 10; 9; 0]]
              {| result := "THREAT"; score := -0.5;
                 raw_features := [-44; 1.5; 10; 9; 0];
                 ssid := PStr "HomeNet"; networks := [scenario_A];
                 threat_tier := "CRITICAL" |}) as [_ H];
    [vm_compute; reflexivity|].
  eexists _, _. split; [exact H|]. split; reflexivity.
Defined.

Lemma resolver_without_model_witness :
  exists t rep,
    process_wifi_data float_of_digits repr_whole_float no_artifacts
      [scenario_C] = (t, Return rep)
    /\ result rep = "PROCESSING_ERROR"
    /\ threat_tier rep = "HIGH".
Proof.
  destruct (resolver_without_model float_of_digits repr_whole_float
              no_artifacts scenario_C [] "xyz123")
    as (t & rep & H & Hr & _ & Ht & _);
    [by left | vm_compute; reflexivity|].
  exists t, rep. split; [exact H|]. split; [exact Hr|].
  rewrite Ht. vm_compute. reflexivity.
Defined.

(** ** More on the watcher *)

Lemma emissions_app (t t' : list event) :
  emissions (t ++ t') = emissions t ++ emissions t'.
Proof. unfold emissions. apply omap_app. Qed.

Lemma fetches_app (t t' : list event) :
  fetches (t ++ t') = (fetches t + fetches t')%nat.
Proof. unfold fetches. by rewrite List.filter_app, length_app. Qed.

Section WatcherMore.

Variable py_float : string -> option float.
Variable float_repr : float -> string.
Variable arts : artifacts.

(** A pass leaves the marker or moves it to a strictly later time. *)
Lemma tick_marker_order (env : tick_env) (last_modified_time : float) :
  (tick py_float float_repr arts env last_modified_time).1 = last_modified_time
  \/ (last_modified_time
      <? (tick py_float float_repr arts env last_modified_time).1) = true.
Proof.
  rewrite tick_cases.
  destruct (getmtime env) as [current|e]; [|by left].
  destruct (last_modified_time <? current) eqn:Hlt; [|by left].
  destruct (truthy _) as [nets|]; [|by left].
  destruct (process_wifi_data _ _ _ nets) as [t [report|e]]; [|by left].
  destruct (emit env report); [by right|by left].
Qed.

(** What one pass leaves in the trace: at most one fetch, and an
    emission only after a fetch. *)
Lemma tick_trace_counts (env : tick_env) (last_modified_time : float) :
  let t := (tick py_float float_repr arts env last_modified_time).2 in
  (length (emissions t) <= fetches t)%nat /\ (fetches t <= 1)%nat.
Proof.
  rewrite tick_cases.
  destruct (getmtime env) as [current|e]; [|cbn; lia].
  destruct (last_modified_time <? current); [|cbn; lia].
  destruct (truthy _) as [nets|]; [|cbn; lia].
  pose proof (process_wifi_data_trace py_float float_repr arts nets) as Ht.
  destruct (process_wifi_data _ _ _ nets) as [t [report|e]]; simpl in Ht;
    [destruct (emit env report)|]; cbv zeta; simpl snd;
    change (EvFetch WIFI_DATA_FILE :: t ++ ?l)
      with ([EvFetch WIFI_DATA_FILE] ++ t ++ l);
    rewrite !emissions_app, !fetches_app, !length_app;
    destruct Ht as [-> | [f ->]]; cbn; lia.
Qed.

(** X6: a change is broadcast once. After a pass that moved the marker,
    a pass that finds the file with the same modification time neither
    fetches nor emits: it sleeps a second and keeps the marker. *)
Theorem change_broadcast_once (env env' : tick_env) (last_modified_time : float) :
  (tick py_float float_repr arts env last_modified_time).1 <> last_modified_time ->
  getmtime env' = getmtime env ->
  tick py_float float_repr arts env'
    (tick py_float float_repr arts env last_modified_time).1
  = ((tick py_float float_repr arts env last_modified_time).1, [EvSleep 1]).
Proof.
  intros Hmoved Hsame.
  destruct (tick_marker_moves _ _ _ _ _ Hmoved)
    as (current & nets & t & report & Hm & _ & _ & _ & _ & ->).
  simpl. rewrite tick_cases, Hsame, Hm, float_ltb_irrefl. reflexivity.
Qed.

(** X7: the marker never goes back. Whatever the passes of the loop
    meet, the marker they leave is the one they started from or a
    strictly later time. *)
Theorem marker_never_goes_back (envs : list tick_env) (last_modified_time : float) :
  let final :=
    (check_for_file_updates py_float float_repr arts envs last_modified_time).1 in
  final = last_modified_time \/ (last_modified_time <? final) = true.
Proof.
  revert last_modified_time.
  induction envs as [|env envs IH]; intros last; [by left|].
  cbn -[tick].
  destruct (tick py_float float_repr arts env last) as [marker t] eqn:Ht.
  specialize (IH marker). cbv zeta in IH.
  destruct (check_for_file_updates _ _ _ envs marker) as [final t'].
  simpl in *.
  pose proof (tick_marker_order env last) as Ho. rewrite Ht in Ho. simpl in Ho.
  destruct Ho as [-> | Hlt]; [exact IH|].
  destruct IH as [-> | Hlt']; [by right|].
  right. eapply float_ltb_trans; eassumption.
Qed.

(** X8: a scan that cannot be processed is never broadcast. While the
    file is newer than the marker and its first record has no SSID
    entry, every pass fetches it again, emits nothing and leaves the
    marker where it was. *)
Theorem unprocessable_scan_is_retried (envs : list tick_env)
    (last_modified_time current : float) (cn : pydict) (rest : list pydict) :
  (last_modified_time <? current) = true ->
  cn !! "SSID" = None ->
  Forall (fun env => getmtime env = Return current
                     /\ get_latest_data (scan_reads env) = Some (cn :: rest))
         envs ->
  let run :=
    check_for_file_updates py_float float_repr arts envs last_modified_time in
  run.1 = last_modified_time
  /\ emissions run.2 = []
  /\ fetches run.2 = length envs.
Proof.
  intros Hlt Hs Henvs. cbv zeta.
  induction Henvs as [|env envs [Hm Hd] _ IH]; [done|].
  cbn -[tick].
  assert (exists features,
    tick py_float float_repr arts env last_modified_time
    = (last_modified_time,
       EvFetch WIFI_DATA_FILE :: [EvScore features] ++ [EvSleep 5]))
    as (features & ->).
  { destruct (process_wifi_data_no_ssid py_float float_repr arts cn rest Hs)
      as (features & Hp).
    exists features. rewrite tick_cases, Hm, Hlt, Hd.
    change (truthy (Some (cn :: rest))) with (Some (cn :: rest)).
    cbv iota. by rewrite Hp. }
  destruct (check_for_file_updates _ _ _ envs last_modified_time)
    as [final t'].
  simpl in *. destruct IH as (-> & He & Hf).
  split; [reflexivity|]. split; [exact He|].
  change (EvFetch WIFI_DATA_FILE :: EvScore features :: EvSleep 5 :: t')
    with ([EvFetch WIFI_DATA_FILE; EvScore features; EvSleep 5] ++ t').
  rewrite fetches_app, Hf. reflexivity.
Qed.

(** X9: the loop emits at most once per fetch and fetches at most once
    per pass. *)
Theorem one_emission_per_fetch (envs : list tick_env) (last_modified_time : float) :
  let t :=
    (check_for_file_updates py_float float_repr arts envs last_modified_time).2 in
  (length (emissions t) <= fetches t)%nat /\ (fetches t <= length envs)%nat.
Proof.
  revert last_modified_time.
  induction envs as [|env envs IH]; intros last; [cbn; lia|].
  cbn -[tick].
  pose proof (tick_trace_counts env last) as Ht. cbv zeta in Ht.
  destruct (tick py_float float_repr arts env last) as [marker t].
  specialize (IH marker). cbv zeta in IH.
  destruct (check_for_file_updates _ _ _ envs marker) as [final t'].
  simpl in *. rewrite emissions_app, fetches_app, length_app. lia.
Qed.

End WatcherMore.

Lemma change_broadcast_once_witness :
  tick float_of_digits repr_whole_float no_artifacts scenario_A_env
    (tick float_of_digits repr_whole_float no_artifacts scenario_A_env 100).1
  = (200, [EvSleep 1]).
Proof.
  apply (change_broadcast_once float_of_digits repr_whole_float no_artifacts
           scenario_A_env scenario_A_env 100).
  - vm_compute. intros H. discriminate H.
  - reflexivity.
Defined.

Lemma unprocessable_scan_is_retried_witness :
  let run :=
    check_for_file_updates float_of_digits repr_whole_float flagging_artifacts
      [nameless_env; nameless_env; nameless_env] 100 in
  run.1 = 100 /\ emissions run.2 = [] /\ fetches run.2 = 3%nat.
Proof.
  apply (unprocessable_scan_is_retried float_of_digits repr_whole_float
           flagging_artifacts [nameless_env; nameless_env; nameless_env]
           100 200 nameless_record []).
  - reflexivity.
  - vm_compute. reflexivity.
  - repeat constructor.
Defined.

(** ** The one-shot endpoint *)

Section EndpointFacts.

Variable py_float : string -> option float.
Variable float_repr : float -> string.
Variable arts : artifacts.

(** X10: once the monitor runs, a request changes nothing of the shared
    state: the marker is the watcher's alone and no second monitor is
    started. *)
Theorem request_leaves_running_monitor (env : request_env) (st : server_state) :
  st_monitor_running st = true ->
  (score_signal_endpoint py_float float_repr arts env st).1 = st.
Proof.
  intros Hrun. unfold score_signal_endpoint.
  destruct (initial_scan _ _ _ env) as [t [rep|e]]; [|reflexivity].
  simpl. unfold start_monitor. by rewrite Hrun.
Qed.

(** X11: a request that finds no scan, or an empty one, answers with the
    sentinel report after one read of the file; nothing is scored. *)
Theorem request_without_data (env : request_env) (st : server_state) :
  get_latest_data (scan_reads (rq_files env)) = None
  \/ get_latest_data (scan_reads (rq_files env)) = Some [] ->
  (score_signal_endpoint py_float float_repr arts env st).2
  = ([EvFetch WIFI_DATA_FILE],
     Return {| result := "NO_NETWORKS_FOUND";
               score := 0.0;
               raw_features := [-1.0; -1.0; -1.0; -1.0; -1.0];
               ssid := PStr "N/A";
               networks := [];
               threat_tier := "LOW" |}).
Proof.
  intros Hd. unfold score_signal_endpoint, initial_scan, get_latest_scan_data.
  cbn -[process_wifi_data get_latest_data].
  destruct Hd as [-> | ->]; reflexivity.
Qed.

(** X12: a request whose scan has a first record without SSID entry
    fails with KeyError and never reaches the start of the monitor: the
    shared state is as before. *)
Theorem failed_request_starts_no_monitor (env : request_env) (st : server_state)
    (cn : pydict) (rest : list pydict) :
  get_latest_data (scan_reads (rq_files env)) = Some (cn :: rest) ->
  cn !! "SSID" = None ->
  exists features,
    score_signal_endpoint py_float float_repr arts env st
    = (st, ([EvFetch WIFI_DATA_FILE; EvScore features],
            Raise (KeyError "SSID"))).
Proof.
  intros Hd Hs.
  destruct (process_wifi_data_no_ssid py_float float_repr arts cn rest Hs)
    as (features & Hp).
  exists features.
  unfold score_signal_endpoint, initial_scan, get_latest_scan_data.
  cbn -[process_wifi_data get_latest_data].
  rewrite Hd. change (truthy (Some (cn :: rest))) with (Some (cn :: rest)).
  cbv iota. rewrite Hp. reflexivity.
Qed.

(** X13: the scan a first request answered with is not broadcast again.
    When the request starts the monitor on a file that is there, the
    marker becomes the file's modification time, and a pass of the
    watcher that still finds that time only sleeps. *)
Theorem first_request_sets_marker (env : request_env) (st : server_state)
    (mtime : float) (t : list event) (rep : wifi_report) :
  st_monitor_running st = false ->
  rq_exists env = true ->
  getmtime (rq_files env) = Return mtime ->
  (score_signal_endpoint py_float float_repr arts env st).2 = (t, Return rep) ->
  let st' := (score_signal_endpoint py_float float_repr arts env st).1 in
  st_last_modified_time st' = mtime
  /\ (rq_thread_start env = Return tt -> st_monitor_running st' = true)
  /\ forall env', getmtime env' = Return mtime ->
       tick py_float float_repr arts env' (st_last_modified_time st')
       = (mtime, [EvSleep 1]).
Proof.
  intros Hrun Hex Hm. unfold score_signal_endpoint.
  destruct (initial_scan _ _ _ env) as [t0 [rep0|e]]; [|discriminate].
  intros _. cbv zeta. simpl fst.
  unfold start_monitor. rewrite Hrun, Hex, Hm. simpl.
  split; [reflexivity|]. split; [by intros ->|].
  intros env' Hm'. rewrite tick_cases, Hm', float_ltb_irrefl. reflexivity.
Qed.

End EndpointFacts.

Lemma request_leaves_running_monitor_witness :
  (score_signal_endpoint float_of_digits repr_whole_float no_artifacts
     first_request monitored_state).1 = monitored_state.
Proof.
  apply request_leaves_running_monitor. reflexivity.
Defined.

Lemma request_without_data_witness :
  exists rep,
    (score_signal_endpoint float_of_digits repr_whole_float flagging_artifacts
       request_without_file fresh_state).2
    = ([EvFetch WIFI_DATA_FILE], Return rep)
    /\ result rep = "NO_NETWORKS_FOUND".
Proof.
  eexists. split.
  - apply request_without_data. left. reflexivity.
  - reflexivity.
Defined.

Lemma failed_request_starts_no_monitor_witness :
  exists features,
    score_signal_endpoint float_of_digits repr_whole_float flagging_artifacts
      nameless_request fresh_state
    = (fresh_state,
       ([EvFetch WIFI_DATA_FILE; EvScore features], Raise (KeyError "SSID"))).
Proof.
  apply (failed_request_starts_no_monitor float_of_digits repr_whole_float
           flagging_artifacts nameless_request fresh_state nameless_record []).
  - reflexivity.
  - vm_compute. reflexivity.
Defined.

Lemma first_request_sets_marker_witness :
  let st' := (score_signal_endpoint float_of_digits repr_whole_float
                no_artifacts first_request fresh_state).1 in
  st_last_modified_time st' = 200
  /\ tick float_of_digits repr_whole_float no_artifacts scenario_A_env
       (st_last_modified_time st') = (200, [EvSleep 1]).
Proof.
  destruct (first_request_sets_marker float_of_digits repr_whole_float
              no_artifacts first_request fresh_state 200
              [EvFetch WIFI_DATA_FILE; EvScore [-44; 1.5; 10; 9; 0]]
              {| result := "PROCESSING_ERROR"; score := 999;
                 raw_features := [-44; 1.5; 10; 9; 0];
                 ssid := PStr "HomeNet"; networks := [scenario_A];
                 threat_tier := "LOW" |}) as (Hm & _ & Ht);
    [reflexivity | reflexivity | reflexivity | vm_compute; reflexivity|].
  split; [exact Hm|]. apply Ht. reflexivity.
Defined.

(** ** The two thresholds *)



(** ** More on the Bluetooth endpoint *)

Lemma bluetooth_scan_endpoint_inv (now : string) (bt_raw_data : option bt_raw)
    (rep : bt_report) :
  bluetooth_scan_endpoint now bt_raw_data = Return rep ->
  filter_devices (input_devices bt_raw_data) = Return (devices rep)
  /\ max_threat_loop (devices rep) "LOW" = Return (max_threat rep)
  /\ devices_detected rep = length (devices rep).
Proof.
  unfold bluetooth_scan_endpoint, input_devices.
  destruct bt_raw_data as [d|]; [|intros H; inversion H; done].
  unfold bt_empty.
  destruct (bt_devices d) as [l|].
  - destruct (filter_devices l) as [out|e]; [|discriminate]. cbn.
    destruct (max_threat_loop out "LOW") as [worst|e] eqn:Hw; [|discriminate].
    cbn. intros H. inversion H; subst; clear H. done.
  - case_bool_decide; cbn; intros Hret; inversion Hret; done.
Qed.

Lemma filter_devices_filter (devs out : list pydict) :
  filter_devices devs = Return out -> out = List.filter within_limit devs.
Proof.
  revert out. induction devs as [|d devs IH]; intros out H.
  - by inversion H.
  - cbn -[BT_PROXIMITY_LIMIT PrimFloat.add] in H. simpl List.filter.
    unfold within_limit at 1.
    destruct (py_le_float _ _) as [keep|e]; [|discriminate].
    cbn -[BT_PROXIMITY_LIMIT PrimFloat.add] in H.
    destruct (filter_devices devs) as [rest'|e]; [|discriminate].
    cbn in H. inversion H; subst; clear H.
    rewrite <- (IH rest' eq_refl). reflexivity.
Qed.

Lemma filter_devices_raises (devs : list pydict) :
  Exists (fun device =>
            match device !! "distance_m" with
            | Some PNone | Some (PStr _) => True
            | _ => False
            end) devs ->
  filter_devices devs = Raise TypeError.
Proof.
  induction devs as [|d devs IH]; intros H; [by inversion H|].
  cbn -[BT_PROXIMITY_LIMIT PrimFloat.add].
  assert (forall dev e,
            py_le_float dev BT_PROXIMITY_LIMIT = Raise e -> e = TypeError) as Hty.
  { intros [] ? Hr; simpl in Hr; congruence. }
  destruct (py_le_float _ _) as [keep|e] eqn:Hk.
  - cbn. rewrite IH; [reflexivity|].
    inversion H as [? ? Hd|]; subst; [|assumption].
    exfalso. unfold dict_get in Hk.
    destruct (d !! "distance_m") as [[| | | |]|]; try done; discriminate.
  - cbn. f_equal. exact (Hty _ _ Hk).
Qed.

Lemma py_eq_str_true (v : pyval) (s : string) :
  py_eq_str v s = true <-> v = PStr s.
Proof.
  destruct v as [|b|z|f|s']; simpl; split; try discriminate.
  - intros H. apply String.eqb_eq in H. by subst.
  - intros H. inversion H. apply String.eqb_refl.
Qed.

Lemma max_threat_loop_worst (filtered : list pydict) (start worst : string) :
  max_threat_loop filtered start = Return worst ->
  (worst = "CRITICAL" /\ Exists (has_status "CRITICAL") filtered)
  \/ (~ Exists (has_status "CRITICAL") filtered
      /\ ((worst = "HIGH" /\ Exists (has_status "HIGH") filtered)
          \/ (worst = start /\ ~ Exists (has_status "HIGH") filtered))).
Proof.
  revert start. induction filtered as [|d l IH]; intros start H.
  - inversion H; subst. right. split; [by intros Hx; inversion Hx|].
    right. split; [reflexivity|by intros Hx; inversion Hx].
  - cbn in H. unfold dict_index in H.
    destruct (d !! "status") as [st|] eqn:Hst; [|discriminate]. cbn in H.
    destruct (py_eq_str st "CRITICAL") eqn:Hc.
    { apply py_eq_str_true in Hc. subst st. inversion H; subst.
      left. split; [reflexivity|]. by left. }
    assert (~ has_status "CRITICAL" d) as Hnc.
    { unfold has_status. rewrite Hst. intros Heq. inversion Heq; subst.
      simpl in Hc. discriminate. }
    destruct (py_eq_str st "HIGH") eqn:Hh.
    + apply py_eq_str_true in Hh. subst st.
      destruct (IH _ H) as [[-> Hex]|[Hno [[-> Hex]|[-> Hnh]]]].
      * left. split; [reflexivity|by right].
      * right. split; [by intros Hx; inversion Hx|].
        left. split; [reflexivity|by left].
      * right. split; [by intros Hx; inversion Hx|].
        left. split; [reflexivity|by left].
    + assert (~ has_status "HIGH" d) as Hnh.
      { unfold has_status. rewrite Hst. intros Heq. inversion Heq; subst.
        simpl in Hh. discriminate. }
      destruct (IH _ H) as [[-> Hex]|[Hno [[-> Hex]|[-> Hnh']]]].
      * left. split; [reflexivity|by right].
      * right. split; [by intros Hx; inversion Hx|].
        left. split; [reflexivity|by right].
      * right. split; [by intros Hx; inversion Hx|].
        right. split; [reflexivity|by intros Hx; inversion Hx].
Qed.

(** X15: the worst tier of a report is read off the reported devices:
    CRITICAL exactly when one of them has status CRITICAL, HIGH exactly
    when none is CRITICAL and one is HIGH, LOW otherwise. A device that
    the proximity filter dropped has no say. *)
Theorem max_threat_is_worst_reported (now : string) (bt_raw_data : option bt_raw)
    (rep : bt_report) :
  bluetooth_scan_endpoint now bt_raw_data = Return rep ->
  (max_threat rep = "CRITICAL" <-> Exists (has_status "CRITICAL") (devices rep))
  /\ (max_threat rep = "HIGH" <->
      ~ Exists (has_status "CRITICAL") (devices rep)
      /\ Exists (has_status "HIGH") (devices rep))
  /\ (max_threat rep = "LOW" <->
      ~ Exists (has_status "CRITICAL") (devices rep)
      /\ ~ Exists (has_status "HIGH") (devices rep)).
Proof.
  intros H. apply bluetooth_scan_endpoint_inv in H as (_ & Hw & _).
  apply max_threat_loop_worst in Hw.
  destruct Hw as [[-> Hex]|[Hno [[-> Hex]|[-> Hnh]]]];
    repeat split; try done; try (intros [? ?]; done).
Qed.

(** X16: the reported devices are the devices of the document that pass
    the proximity test, all of them and in the order of the document;
    the count reported is their number. *)
Theorem reported_devices_are_filtered (now : string)
    (bt_raw_data : option bt_raw) (rep : bt_report) :
  bluetooth_scan_endpoint now bt_raw_data = Return rep ->
  devices rep = List.filter within_limit (input_devices bt_raw_data)
  /\ devices_detected rep = length (devices rep)
  /\ (devices_detected rep <= length (input_devices bt_raw_data))%nat.
Proof.
  intros H. apply bluetooth_scan_endpoint_inv in H as (Hf & _ & Hn).
  apply filter_devices_filter in Hf.
  split; [exact Hf|]. split; [exact Hn|].
  rewrite Hn, Hf. apply List.filter_length_le.
Qed.

(** X17: one device whose distance is a string or null makes the whole
    request fail with TypeError, wherever it stands in the document. *)
Theorem mistyped_distance_fails (now : string) (bt_raw_data : option bt_raw)
    (device : pydict) :
  In device (input_devices bt_raw_data) ->
  device !! "distance_m" = Some PNone
  \/ (exists s, device !! "distance_m" = Some (PStr s)) ->
  bluetooth_scan_endpoint now bt_raw_data = Raise TypeError.
Proof.
  intros Hin Hbad.
  unfold bluetooth_scan_endpoint, input_devices in *.
  destruct bt_raw_data as [d|]; [|destruct Hin].
  unfold bt_empty.
  destruct (bt_devices d) as [l|]; [|destruct Hin].
  rewrite filter_devices_raises; [reflexivity|].
  apply List.Exists_exists. exists device. split; [exact Hin|].
  destruct Hbad as [-> | [s ->]]; exact I.
Qed.

Lemma max_threat_is_worst_reported_witness :
  exists rep,
    bluetooth_scan_endpoint "2026-01-01 00:00:00" (Some three_devices) = Return rep
    /\ max_threat rep = "HIGH"
    /\ ~ Exists (has_status "CRITICAL") (devices rep).
Proof.
  destruct (bluetooth_scan_endpoint "2026-01-01 00:00:00" (Some three_devices))
    as [rep|e] eqn:H; [|vm_compute in H; discriminate H].
  exists rep. split; [reflexivity|].
  assert (max_threat rep = "HIGH") as Hm
    by (vm_compute in H; inversion H; reflexivity).
  split; [exact Hm|].
  apply (proj1 (proj2 (max_threat_is_worst_reported _ _ _ H))). exact Hm.
Defined.

Lemma reported_devices_are_filtered_witness :
  exists rep,
    bluetooth_scan_endpoint "2026-01-01 00:00:00" (Some three_devices) = Return rep
    /\ devices rep = [device_near]
    /\ devices_detected rep = 1%nat.
Proof.
  destruct (bluetooth_scan_endpoint "2026-01-01 00:00:00" (Some three_devices))
    as [rep|e] eqn:H; [|vm_compute in H; discriminate H].
  exists rep. split; [reflexivity|].
  destruct (reported_devices_are_filtered _ _ _ H) as (Hd & Hn & _).
  split; [rewrite Hd; vm_compute; reflexivity|].
  rewrite Hn, Hd. vm_compute. reflexivity.
Defined.

Lemma mistyped_distance_fails_witness :
  bluetooth_scan_endpoint "2026-01-01 00:00:00"
    (Some {| bt_devices := Some [device_near; device_mistyped];
             bt_scalars := ∅ |})
  = Raise TypeError.
Proof.
  apply (mistyped_distance_fails _ _ device_mistyped).
  - right. left. reflexivity.
  - right. exists "2.5". vm_compute. reflexivity.
Defined.

(** ** More on the Bluetooth model *)

Local Close Scope float_scope.

Section BluetoothZones.

Import Bluetooth.
Local Open Scope R_scope.

Lemma Rpower_10_13_28 : Rpower 10 (13 / 28) < 3.
Proof.
  destruct (Rlt_le_dec (Rpower 10 (13 / 28)) 3) as [H|H]; [exact H|].
  exfalso.
  assert (3 ^ 28 <= Rpower 10 (13 / 28) ^ 28) as Hp by (apply pow_incr; lra).
  rewrite <- (Rpower_pow 28 (Rpower 10 (13 / 28))) in Hp
    by (unfold Rpower; apply exp_pos).
  rewrite Rpower_mult in Hp.
  replace (13 / 28 * INR 28) with (INR 13) in Hp by (simpl; lra).
  rewrite Rpower_pow in Hp by lra.
  rewrite !pow_IZR in Hp. apply le_IZR in Hp. vm_compute in Hp.
  apply Hp. reflexivity.
Qed.

Lemma Rpower_10_half : 3 < Rpower 10 (1 / 2).
Proof.
  destruct (Rlt_le_dec 3 (Rpower 10 (1 / 2))) as [H|H]; [exact H|].
  exfalso.
  assert (0 < Rpower 10 (1 / 2)) as Hpos by (unfold Rpower; apply exp_pos).
  assert (Rpower 10 (1 / 2) ^ 2 <= 3 ^ 2) as Hp by (apply pow_incr; lra).
  rewrite <- (Rpower_pow 2 (Rpower 10 (1 / 2))) in Hp by exact Hpos.
  rewrite Rpower_mult in Hp.
  replace (1 / 2 * INR 2) with 1 in Hp by (simpl; lra).
  rewrite Rpower_1 in Hp by lra. lra.
Qed.

Lemma calculate_distance_below_gt_1 (rssi : R) :
  rssi < RSSI_AT_1M -> 1 < calculate_distance rssi.
Proof.
  intros H. rewrite calculate_distance_below by exact H.
  rewrite <- (Rpower_O 10) at 1 by lra.
  apply Rpower_lt; [lra|].
  unfold RSSI_AT_1M, PATH_LOSS_EXPONENT in *.
  apply Rdiv_lt_0_compat; lra.
Qed.

(** The estimate does not grow with the signal strength. *)
Lemma calculate_distance_antitone (r1 r2 : R) :
  r1 <= r2 -> calculate_distance r2 <= calculate_distance r1.
Proof.
  intros H.
  destruct (Rge_dec r2 RSSI_AT_1M) as [H2|H2].
  - rewrite (calculate_distance_at_or_above r2) by exact H2.
    destruct (Rge_dec r1 RSSI_AT_1M) as [H1|H1].
    + rewrite calculate_distance_at_or_above by exact H1. lra.
    + pose proof (calculate_distance_below_gt_1 r1). lra.
  - rewrite !calculate_distance_below by lra.
    apply Rle_Rpower; [lra|].
    unfold RSSI_AT_1M, PATH_LOSS_EXPONENT in *. lra.
Qed.

Lemma distance_close_iff (rssi : R) :
  calculate_distance rssi < 0.5 <-> rssi >= -59.
Proof.
  replace (-59) with RSSI_AT_1M by (unfold RSSI_AT_1M; lra).
  destruct (Rge_dec rssi RSSI_AT_1M) as [H|H].
  - rewrite calculate_distance_at_or_above by exact H. split; [done|lra].
  - pose proof (calculate_distance_below_gt_1 rssi). split; lra.
Qed.

Lemma distance_below_3 (rssi : R) :
  -72 <= rssi -> calculate_distance rssi < 3.0.
Proof.
  intros H. destruct (Rge_dec rssi RSSI_AT_1M) as [Hr|Hr].
  - rewrite calculate_distance_at_or_above by exact Hr. lra.
  - apply Rle_lt_trans with (calculate_distance (-72)).
    + apply calculate_distance_antitone. exact H.
    + rewrite calculate_distance_below by (unfold RSSI_AT_1M; lra).
      replace ((RSSI_AT_1M - -72) / (10.0 * PATH_LOSS_EXPONENT))
        with (13 / 28) by (unfold RSSI_AT_1M, PATH_LOSS_EXPONENT; lra).
      pose proof Rpower_10_13_28. lra.
Qed.

Lemma distance_above_3 (rssi : R) :
  rssi <= -73 -> 3.0 < calculate_distance rssi.
Proof.
  intros H. apply Rlt_le_trans with (calculate_distance (-73)).
  - rewrite calculate_distance_below by (unfold RSSI_AT_1M; lra).
    replace ((RSSI_AT_1M - -73) / (10.0 * PATH_LOSS_EXPONENT))
      with (1 / 2) by (unfold RSSI_AT_1M, PATH_LOSS_EXPONENT; lra).
    pose proof Rpower_10_half. lra.
  - apply calculate_distance_antitone. exact H.
Qed.

(** X18: the estimate is below half a metre exactly when the signal is
    at or above the reference of -59 dBm; any weaker signal is put
    farther than one metre, so no estimate lies between the floor of
    0.1 m and 1 m. *)
Theorem close_zone_is_reference (rssi : R) :
  (calculate_distance rssi < 0.5 <-> rssi >= -59)
  /\ (rssi < -59 -> 1 < calculate_distance rssi)
  /\ ~ (0.1 < calculate_distance rssi <= 1).
Proof.
  split; [apply distance_close_iff|].
  destruct (Rge_dec rssi RSSI_AT_1M) as [H|H].
  - rewrite calculate_distance_at_or_above by exact H.
    unfold RSSI_AT_1M in H. split; intros; lra.
  - pose proof (calculate_distance_below_gt_1 rssi).
    unfold RSSI_AT_1M in *. split; intros; lra.
Qed.

(** X19: the three-metre line of the table falls between -72 and
    -73 dBm: from -72 dBm up the estimate is below 3 m, from -73 dBm
    down it is above. *)
Theorem room_zone_thresholds (rssi : R) :
  (-72 <= rssi -> calculate_distance rssi < 3.0)
  /\ (rssi <= -73 -> 3.0 < calculate_distance rssi).
Proof. split; [apply distance_below_3|apply distance_above_3]. Qed.



Lemma lower_empty (s : string) : PyStr.lower s = "" <-> s = "".
Proof. destruct s; simpl; split; intros H; try reflexivity; discriminate. Qed.

(** X22: tiering does not look at letter case. Two names that are equal
    once lowercased get the same class and, at the same signal strength,
    the same status. *)
Theorem tiering_ignores_case (rssi : R) (a b : string) :
  PyStr.lower a = PyStr.lower b ->
  get_major_class_from_name a = get_major_class_from_name b
  /\ status (assess_bluetooth_threat rssi (get_major_class_from_name a) a)
     = status (assess_bluetooth_threat rssi (get_major_class_from_name b) b).
Proof.
  intros Hl.
  assert (get_major_class_from_name a = get_major_class_from_name b) as Hc.
  { unfold get_major_class_from_name.
    destruct a as [|ca ra], b as [|cb rb]; try reflexivity; try discriminate.
    by rewrite Hl. }
  split; [exact Hc|].
  unfold assess_bluetooth_threat. rewrite Hc, Hl.
  destruct (Rlt_dec _ _); [|destruct (Rlt_dec _ _)];
    repeat match goal with |- context [if ?c then _ else _] => destruct c end;
    reflexivity.
Qed.

End BluetoothZones.

Lemma close_zone_is_reference_witness :
  (Bluetooth.calculate_distance (-59) < 0.5
   /\ 1 < Bluetooth.calculate_distance (-60))%R.
Proof.
  split.
  - apply (proj1 (close_zone_is_reference (-59))). lra.
  - apply (proj1 (proj2 (close_zone_is_reference (-60)))). lra.
Defined.

Lemma room_zone_thresholds_witness :
  (Bluetooth.calculate_distance (-72) < 3.0
   /\ 3.0 < Bluetooth.calculate_distance (-73))%R.
Proof.
  split.
  - apply (proj1 (room_zone_thresholds (-72))). lra.
  - apply (proj2 (room_zone_thresholds (-73))). lra.
Defined.



Lemma tiering_ignores_case_witness :
  Bluetooth.get_major_class_from_name "WIRELESS MIC"
  = Bluetooth.get_major_class_from_name "wireless mic".
Proof.
  apply (tiering_ignores_case 0 "WIRELESS MIC" "wireless mic"). reflexivity.
Defined.

(** ** The scan *)

Section ScanFacts.

Import BluetoothScan.

Lemma stored_dict_store_eq (a : string) (e : string * Z) (d : detected) :
  stored a (dict_store a e d) = Some e.
Proof.
  induction d as [|[a' e'] r IH]; simpl.
  - by rewrite String.eqb_refl.
  - destruct (String.eqb a' a) eqn:Ha; simpl; rewrite Ha; [reflexivity|exact IH].
Qed.

Lemma stored_dict_store_ne (a b : string) (e : string * Z) (d : detected) :
  a <> b -> stored b (dict_store a e d) = stored b d.
Proof.
  intros Hne. induction d as [|[a' e'] r IH]; simpl.
  - destruct (String.eqb_spec a b); [contradiction|reflexivity].
  - destruct (String.eqb_spec a' a) as [->|Ha]; simpl.
    + destruct (String.eqb_spec a b); [contradiction|reflexivity].
    + destruct (String.eqb a' b); [reflexivity|exact IH].
Qed.

Lemma dict_store_keys (a : string) (e : string * Z) (d : detected) :
  map fst (dict_store a e d)
  = if existsb (fun k => String.eqb k a) (map fst d)
    then map fst d else map fst d ++ [a].
Proof.
  induction d as [|[a' e'] r IH]; simpl; [reflexivity|].
  destruct (String.eqb a' a); simpl; [reflexivity|].
  rewrite IH. by destruct (existsb _ _).
Qed.

Lemma dict_store_NoDup (a : string) (e : string * Z) (d : detected) :
  NoDup (map fst d) -> NoDup (map fst (dict_store a e d)).
Proof.
  intros Hd. rewrite dict_store_keys.
  destruct (existsb _ _) eqn:Hex; [exact Hd|].
  apply NoDup_app. split; [exact Hd|]. split; [|apply NoDup_singleton].
  intros x Hx Hin. apply list_elem_of_singleton in Hin. subst x.
  assert (existsb (fun k => String.eqb k a) (map fst d) = true); [|congruence].
  apply existsb_exists. exists a. split; [|apply String.eqb_refl].
  by apply list_elem_of_In.
Qed.

Lemma stored_In (a : string) (e : string * Z) (d : detected) :
  stored a d = Some e -> In (a, e) d.
Proof.
  induction d as [|[a' e'] r IH]; simpl; [discriminate|].
  destruct (String.eqb_spec a' a) as [->|Ha].
  - intros H. inversion H. by left.
  - intros H. right. by apply IH.
Qed.

Lemma stored_keys (a : string) (d : detected) :
  In a (map fst d) <-> is_Some (stored a d).
Proof.
  induction d as [|[a' e'] r IH]; simpl.
  - split; [intros []|intros [? H]; discriminate].
  - destruct (String.eqb_spec a' a) as [->|Ha].
    + split; [by eauto|by left].
    + rewrite <- IH. split; [intros [?|?]; [contradiction|done]|by right].
Qed.

(** The dict after some more packets. *)
Definition collect_from (d : detected) (packets : list advertisement) : detected :=
  fold_left (fun d adv => detection_callback adv d) packets d.

Lemma collect_from_NoDup (packets : list advertisement) (d : detected) :
  NoDup (map fst d) -> NoDup (map fst (collect_from d packets)).
Proof.
  revert d. induction packets as [|adv packets IH]; intros d Hd; [exact Hd|].
  simpl. apply IH. unfold detection_callback.
  destruct (adv_rssi adv <? 0)%Z; [by apply dict_store_NoDup|exact Hd].
Qed.

Lemma collect_from_keys (packets : list advertisement) (d : detected) (a : string) :
  is_Some (stored a (collect_from d packets))
  <-> is_Some (stored a d)
      \/ exists adv, In adv packets /\ adv_address adv = a /\ (adv_rssi adv < 0)%Z.
Proof.
  revert d. induction packets as [|adv packets IH]; intros d; simpl.
  - split; [by left|]. intros [H|(adv & [] & _)]; exact H.
  - rewrite IH. unfold detection_callback.
    destruct (Z.ltb_spec (adv_rssi adv) 0) as [Hneg|Hpos].
    + destruct (String.eqb_spec (adv_address adv) a) as [<-|Hne].
      * rewrite stored_dict_store_eq. split; [|by eauto].
        intros _. right. exists adv. by eauto.
      * rewrite stored_dict_store_ne by exact Hne.
        split.
        -- intros [H|(adv' & Hin & Ha & Hr)]; [by left|].
           right. exists adv'. by eauto.
        -- intros [H|(adv' & [->|Hin] & Ha & Hr)];
             [by left|contradiction|].
           right. exists adv'. by eauto.
    + split.
      * intros [H|(adv' & Hin & Ha & Hr)]; [by left|].
        right. exists adv'. by eauto.
      * intros [H|(adv' & [->|Hin] & Ha & Hr)]; [by left|lia|].
        right. exists adv'. by eauto.
Qed.

Lemma collect_from_quiet (packets : list advertisement) (d : detected) (a : string) :
  (forall adv, In adv packets -> adv_address adv = a -> (0 <= adv_rssi adv)%Z) ->
  stored a (collect_from d packets) = stored a d.
Proof.
  revert d. induction packets as [|adv packets IH]; intros d H; [reflexivity|].
  simpl. rewrite IH by (intros adv' Hin; apply H; by right).
  unfold detection_callback.
  destruct (Z.ltb_spec (adv_rssi adv) 0) as [Hneg|Hpos]; [|reflexivity].
  apply stored_dict_store_ne. intros Ha.
  specialize (H adv (or_introl eq_refl) Ha). lia.
Qed.

Lemma collect_from_app (d : detected) (l l' : list advertisement) :
  collect_from d (l ++ l') = collect_from (collect_from d l) l'.
Proof. apply fold_left_app. Qed.

Lemma scan_addresses (packets : list advertisement) :
  map fst (perform_scan_and_assess packets) = map fst (collect packets).
Proof.
  unfold perform_scan_and_assess, Bluetooth.perform_scan_and_assess.
  rewrite !map_map. apply map_ext. intros [a [n r]]. reflexivity.
Qed.

(** X23: a scan reports each address once, however many packets it sent,
    and it reports exactly the addresses that sent a packet with a
    negative signal strength. *)
Theorem scan_reports_each_address_once (packets : list advertisement) :
  NoDup (map fst (perform_scan_and_assess packets))
  /\ forall address,
       In address (map fst (perform_scan_and_assess packets))
       <-> exists adv, In adv packets
                       /\ adv_address adv = address
                       /\ (adv_rssi adv < 0)%Z.
Proof.
  rewrite scan_addresses. split.
  - apply (collect_from_NoDup packets []). constructor.
  - intros address. rewrite stored_keys.
    unfold collect. fold (collect_from [] packets).
    rewrite collect_from_keys. simpl. split; [|by right].
    intros [[? H]|H]; [discriminate|exact H].
Qed.

(** X24: the last packet counts. A device is assessed with the name and
    the signal strength of the last packet it sent with a negative
    signal strength; what it sent before is overwritten, and later
    packets with a signal strength of zero or more are ignored. *)
Theorem scan_keeps_last_packet (before after : list advertisement)
    (adv : advertisement) :
  (adv_rssi adv < 0)%Z ->
  (forall later, In later after -> adv_address later = adv_address adv ->
     (0 <= adv_rssi later)%Z) ->
  In (adv_address adv,
      Bluetooth.assess_bluetooth_threat (IZR (adv_rssi adv))
        (Bluetooth.get_major_class_from_name (advertised_name adv))
        (advertised_name adv))
     (perform_scan_and_assess (before ++ adv :: after)).
Proof.
  intros Hneg Hquiet.
  assert (stored (adv_address adv) (collect (before ++ adv :: after))
          = Some (advertised_name adv, adv_rssi adv)) as Hst.
  { unfold collect. fold (collect_from [] (before ++ adv :: after)).
    rewrite collect_from_app. simpl.
    rewrite collect_from_quiet by exact Hquiet.
    unfold detection_callback.
    destruct (Z.ltb_spec (adv_rssi adv) 0); [|lia].
    apply stored_dict_store_eq. }
  apply stored_In in Hst.
  unfold perform_scan_and_assess, Bluetooth.perform_scan_and_assess.
  rewrite map_map. apply in_map_iff.
  exists (adv_address adv, (advertised_name adv, adv_rssi adv)).
  split; [reflexivity|exact Hst].
Qed.

Lemma assess_echoes_name (rssi : R) (device_class_major : Z) (name : string) :
  Bluetooth.device_name
    (Bluetooth.assess_bluetooth_threat rssi device_class_major name) = name.
Proof.
  unfold Bluetooth.assess_bluetooth_threat.
  destruct (Rlt_dec _ _); [|destruct (Rlt_dec _ _)];
    repeat match goal with |- context [if ?c then _ else _] => destruct c end;
    reflexivity.
Qed.

Lemma assess_echoes_class (rssi : R) (device_class_major : Z) (name : string) :
  Bluetooth.device_type_code
    (Bluetooth.assess_bluetooth_threat rssi device_class_major name)
  = device_class_major.
Proof.
  unfold Bluetooth.assess_bluetooth_threat.
  destruct (Rlt_dec _ _); [|destruct (Rlt_dec _ _)];
    repeat match goal with |- context [if ?c then _ else _] => destruct c end;
    reflexivity.
Qed.

Lemma advertised_name_nonempty (adv : advertisement) :
  adv_address adv <> "" -> advertised_name adv <> "".
Proof.
  intros Ha. unfold advertised_name, truthy_name.
  destruct (adv_name adv) as [[|c r]|]; try discriminate;
    destruct (adv_local_name adv) as [[|c' r']|]; try discriminate; exact Ha.
Qed.

Lemma dict_store_Forall (P : string * Z -> Prop) (a : string) (e : string * Z)
    (d : detected) :
  P e -> Forall (fun kv => P kv.2) d ->
  Forall (fun kv => P kv.2) (dict_store a e d).
Proof.
  intros He. induction 1 as [|[a' e'] r Hh Ht IH]; simpl.
  - by repeat constructor.
  - destruct (String.eqb a' a); constructor; auto.
Qed.

Lemma collect_from_names (packets : list advertisement) (d : detected) :
  Forall (fun adv => adv_address adv <> "") packets ->
  Forall (fun kv => kv.2.1 <> "") d ->
  Forall (fun kv => kv.2.1 <> "") (collect_from d packets).
Proof.
  intros Hp. revert d. induction Hp as [|adv packets Ha _ IH]; intros d Hd;
    [exact Hd|].
  simpl. apply IH. unfold detection_callback.
  destruct (adv_rssi adv <? 0)%Z; [|exact Hd].
  apply (dict_store_Forall (fun e => e.1 <> "")); [|exact Hd].
  by apply advertised_name_nonempty.
Qed.

(** X25: no reported device is nameless. When the addresses are not
    empty, every result carries a non-empty name, the address standing
    in where the device sent none, so its class code is that of the
    audio/video class or of the phone class, never 0. *)
Theorem scanned_devices_are_named (packets : list advertisement)
    (address : string) (a : Bluetooth.assessment) :
  Forall (fun adv => adv_address adv <> "") packets ->
  In (address, a) (perform_scan_and_assess packets) ->
  Bluetooth.device_name a <> ""
  /\ (Bluetooth.device_type_code a = Bluetooth.MAJOR_CLASS_AUDIO_VIDEO
      \/ Bluetooth.device_type_code a = Bluetooth.MAJOR_CLASS_PHONE).
Proof.
  intros Hp Hin.
  unfold perform_scan_and_assess, Bluetooth.perform_scan_and_assess in Hin.
  rewrite map_map in Hin. apply in_map_iff in Hin as ([a' [n r]] & Heq & Hin).
  inversion Heq; subst; clear Heq.
  pose proof (collect_from_names packets [] Hp (List.Forall_nil _)) as Hn.
  rewrite List.Forall_forall in Hn. specialize (Hn _ Hin). simpl in Hn.
  rewrite assess_echoes_name, assess_echoes_class.
  split; [exact Hn|].
  unfold Bluetooth.get_major_class_from_name.
  destruct n as [|c s]; [contradiction|].
  destruct (_ || _ || _); auto.
Qed.

End ScanFacts.

Lemma scan_keeps_last_packet_witness :
  In ("AA:01",
      Bluetooth.assess_bluetooth_threat (-50) 4 "BT Headset")
     (BluetoothScan.perform_scan_and_assess
        [headset_far; headset_near; phone_at_zero]).
Proof.
  apply (scan_keeps_last_packet [headset_far] [phone_at_zero] headset_near).
  - reflexivity.
  - intros later [<-|[]] Ha. discriminate Ha.
Defined.

Lemma scanned_devices_are_named_witness :
  Forall (fun result => Bluetooth.device_name result.2 <> "")
         (BluetoothScan.perform_scan_and_assess
            [anonymous_beacon; headset_near]).
Proof.
  apply List.Forall_forall. intros [address a] Hin.
  apply (scanned_devices_are_named [anonymous_beacon; headset_near] address a);
    [|exact Hin].
  repeat constructor; discriminate.
Defined.

(** ** The hand-off from the scanner to the server *)

Local Open Scope float_scope.

Lemma lower_upper_ascii (c : ascii) :
  PyStr.lower_ascii (PyText.upper_ascii c) = PyStr.lower_ascii c.
Proof. destruct c as [[] [] [] [] [] [] [] []]; reflexivity. Qed.

Lemma lower_upper (s : string) : PyStr.lower (PyText.upper s) = PyStr.lower s.
Proof.
  induction s as [|c r IH]; simpl; [reflexivity|].
  by rewrite lower_upper_ascii, IH.
Qed.

Lemma prefix_lower (a b : string) :
  String.prefix a b = true ->
  String.prefix (PyStr.lower a) (PyStr.lower b) = true.
Proof.
  revert a. induction b as [|cb b IH]; intros [|ca a]; simpl; try done.
  destruct (ascii_dec ca cb) as [->|Hne]; [|discriminate].
  intros H. destruct (ascii_dec _ _); [by apply IH|contradiction].
Qed.

Lemma contains_lower (a b : string) :
  PyStr.contains a b = true ->
  PyStr.contains (PyStr.lower a) (PyStr.lower b) = true.
Proof.
  induction b as [|cb b IH].
  - destruct a; simpl; done.
  - cbn [PyStr.contains PyStr.lower]. intros H.
    apply orb_true_iff in H as [H|H].
    + apply (prefix_lower a (String cb b)) in H.
      cbn [PyStr.lower] in H. by rewrite H.
    + rewrite (IH H). apply orb_true_r.
Qed.

Lemma prefix_shorter (a b s : string) :
  String.prefix (String.append a b) s = true -> String.prefix a s = true.
Proof.
  revert s. induction a as [|ca a IH]; intros [|cs s]; simpl; try done.
  destruct (ascii_dec ca cs); [apply IH|done].
Qed.

Lemma contains_shorter (a b s : string) :
  PyStr.contains (String.append a b) s = true -> PyStr.contains a s = true.
Proof.
  induction s as [|cs s IH].
  - destruct a; simpl; done.
  - cbn [PyStr.contains]. intros H. apply orb_true_iff in H as [H|H].
    + by rewrite (prefix_shorter _ _ _ H).
    + rewrite (IH H). apply orb_true_r.
Qed.

(** What the scanner calls secure contains wpa once lowercased. *)
Lemma classify_security_wpa (text : string) :
  Bridge.classify_security (Some text) = 1%Z ->
  PyStr.contains "wpa" (PyStr.lower text) = true.
Proof.
  unfold Bridge.classify_security.
  destruct (existsb _ _); [discriminate|].
  destruct (PyStr.contains "WEP" _); [discriminate|].
  destruct (PyStr.contains "WPA2" (PyText.upper text)) eqn:H2.
  - intros _. apply contains_lower in H2. rewrite lower_upper in H2.
    apply (contains_shorter "wpa" "2"). exact H2.
  - destruct (PyStr.contains "WPA3" (PyText.upper text)) eqn:H3; [|discriminate].
    intros _. apply contains_lower in H3. rewrite lower_upper in H3.
    apply (contains_shorter "wpa" "3"). exact H3.
Qed.

Lemma classify_network_lookup (security_column key : string)
    (network : Bridge.strdict) :
  key <> "SSID_Type" -> key <> "Is_Secure" ->
  Bridge.classify_network security_column network !! key
  = PStr <$> network !! key.
Proof.
  intros H1 H2. unfold Bridge.classify_network.
  rewrite lookup_insert_ne by done. rewrite lookup_insert_ne by done.
  apply lookup_fmap.
Qed.

Lemma windows_line_keeps_ssid (timestamp line : string)
    (st : list Bridge.strdict * Bridge.strdict) :
  Forall (fun n => is_Some (n !! "SSID")) st.1 ->
  Forall (fun n => is_Some (n !! "SSID"))
         (Bridge.windows_line timestamp line st).1.
Proof.
  destruct st as [networks current]. simpl. intros H.
  unfold Bridge.windows_line.
  destruct (PyStr.strip line) as [|c r]; [exact H|].
  destruct (String.prefix "SSID " _).
  { simpl. destruct (current !! "SSID") eqn:Hs; [|exact H].
    apply Forall_app. split; [exact H|].
    constructor; [by rewrite Hs|constructor]. }
  repeat match goal with
         | |- context [if ?c then _ else _] => destruct c
         end; exact H.
Qed.

Lemma parse_windows_output_ssid (output timestamp : string) :
  Forall (fun n => is_Some (n !! "SSID"))
         (Bridge.parse_windows_output output timestamp).
Proof.
  unfold Bridge.parse_windows_output.
  assert (forall lines st,
    Forall (fun n : Bridge.strdict => is_Some (n !! "SSID")) st.1 ->
    Forall (fun n : Bridge.strdict => is_Some (n !! "SSID"))
      (fold_left (fun st line => Bridge.windows_line timestamp line st)
                 lines st).1) as Hfold.
  { induction lines as [|line lines IH]; intros st Hst; [exact Hst|].
    simpl. apply IH. by apply windows_line_keeps_ssid. }
  specialize (Hfold (PyText.splitlines output)
                ([], {["Timestamp" := timestamp]}) (List.Forall_nil _)).
  destruct (fold_left _ _ _) as [networks current]. simpl in Hfold.
  destruct (current !! "SSID") eqn:Hs; [|exact Hfold].
  apply Forall_app. split; [exact Hfold|].
  constructor; [by rewrite Hs|constructor].
Qed.

Lemma linux_record_keys (timestamp line : string) (r : Bridge.strdict) :
  Bridge.linux_record timestamp line = Some r ->
  is_Some (r !! "SSID") /\ r !! "Authentication" = None.
Proof.
  unfold Bridge.linux_record.
  destruct (PyText.split_wide_gaps _)
    as [|f0 [|f1 [|f2 [|f3 [|f4 [|f5 [|f6 [|f7 rest]]]]]]]]; try discriminate.
  intros H. inversion H; subst; clear H. split.
  - rewrite lookup_insert_ne by done. rewrite lookup_insert_ne by done.
    rewrite lookup_insert_eq. by eexists.
  - repeat (rewrite lookup_insert_ne by done). apply lookup_empty.
Qed.

Lemma parse_linux_output_keys (output timestamp : string) :
  Forall (fun r => is_Some (r !! "SSID") /\ r !! "Authentication" = None)
         (Bridge.parse_linux_output output timestamp).
Proof.
  unfold Bridge.parse_linux_output.
  destruct (PyText.split_on _ _ _) as [|header [|row rows]];
    try constructor.
  apply List.Forall_forall. intros r Hin.
  apply list_elem_of_In, list_elem_of_omap in Hin as (line & _ & Hr).
  by eapply linux_record_keys.
Qed.

Section HandOff.

Variable py_float : string -> option float.
Variable float_repr : float -> string.
Variable arts : artifacts.

Lemma scanned_list_resolves (security_column : string)
    (parsed : list Bridge.strdict) :
  Forall (fun n => is_Some (n !! "SSID")) parsed ->
  exists t rep,
    process_wifi_data py_float float_repr arts
      (map (Bridge.classify_network security_column) parsed)
    = (t, Return rep).
Proof.
  intros H. destruct H as [|n parsed [s Hs] _]; [by eexists _, _|].
  simpl. apply (process_wifi_data_returns _ _ _ _ _ s).
  rewrite classify_network_lookup by done. by rewrite Hs.
Qed.

(** X26: the server never fails on what the scanner wrote. Whatever the
    scan command printed, on Windows and on Linux, the list the scanner
    writes has a string SSID in every record, and the resolver returns a
    report for it. *)
Theorem scanner_output_always_resolves (output timestamp : string) :
  (Forall (fun n => exists s, n !! "SSID" = Some (PStr s))
          (Bridge.windows_scan output timestamp)
   /\ exists t rep,
        process_wifi_data py_float float_repr arts
          (Bridge.windows_scan output timestamp) = (t, Return rep))
  /\ (Forall (fun n => exists s, n !! "SSID" = Some (PStr s))
             (Bridge.linux_scan output timestamp)
      /\ exists t rep,
           process_wifi_data py_float float_repr arts
             (Bridge.linux_scan output timestamp) = (t, Return rep)).
Proof.
  assert (forall col parsed,
    Forall (fun n : Bridge.strdict => is_Some (n !! "SSID")) parsed ->
    Forall (fun n : pydict => exists s, n !! "SSID" = Some (PStr s))
           (map (Bridge.classify_network col) parsed)) as Hmap.
  { intros col parsed H. apply List.Forall_map.
    eapply List.Forall_impl; [|exact H]. intros n [s Hs]. exists s.
    rewrite classify_network_lookup by done. by rewrite Hs. }
  pose proof (parse_windows_output_ssid output timestamp) as Hw.
  assert (Forall (fun n : Bridge.strdict => is_Some (n !! "SSID"))
            (Bridge.parse_linux_output output timestamp)) as Hl.
  { eapply List.Forall_impl; [|apply parse_linux_output_keys].
    by intros r [Hs _]. }
  unfold Bridge.windows_scan, Bridge.linux_scan.
  split; (split; [by apply Hmap|by apply scanned_list_resolves]).
Qed.

(** X27: on Linux every network is assessed as open. The Linux parser
    files the security under Security, the resolver reads
    Authentication, so whatever the listing says the report for a
    non-empty Linux scan never has tier LOW and its vector is never the
    secure profile. *)
Theorem linux_scan_never_low (output timestamp : string)
    (t : list event) (rep : wifi_report) :
  Bridge.linux_scan output timestamp <> [] ->
  process_wifi_data py_float float_repr arts
    (Bridge.linux_scan output timestamp) = (t, Return rep) ->
  threat_tier rep <> "LOW"
  /\ In (threat_tier rep) ["MILD"; "HIGH"; "CRITICAL"]
  /\ forall rssi_mean, raw_features rep <> [rssi_mean; 1.5; 10; 9; 0].
Proof.
  intros Hne Hp. unfold Bridge.linux_scan in *.
  pose proof (parse_linux_output_keys output timestamp) as Hk.
  destruct (Bridge.parse_linux_output output timestamp) as [|r parsed];
    [done|].
  inversion Hk as [|? ? [_ Hauth] _]; subst. simpl in Hp.
  apply process_wifi_data_returned in Hp
    as (s & sc & _ & Hf & _ & _ & _ & _ & _ & Htier).
  cbv zeta in Hf.
  assert (security_value float_repr (Bridge.classify_network "Security" r)
          = "n/a") as Hsv.
  { unfold security_value, dict_get.
    rewrite classify_network_lookup by done. by rewrite Hauth. }
  rewrite Hsv in Htier, Hf.
  unfold profile in Htier, Hf.
  change (is_secure "n/a") with false in Htier, Hf. simpl negb in Htier, Hf.
  cbv iota in Htier, Hf.
  rewrite Htier, Hf.
  destruct (String.eqb (result rep) "THREAT"),
    (is_public_open true (PyStr.lower s)); simpl;
    (split; [discriminate|]); (split; [auto|]);
    intros rssi_mean H; inversion H.
Qed.

(** X28: the server agrees with the scanner on what is secure. A record
    of the Windows scan that the scanner flagged with Is_Secure = 1 is
    secure for the resolver too, so as first record it gets tier LOW
    unless the pipeline says THREAT. *)
Theorem scanner_secure_is_server_secure (output timestamp : string)
    (cn : pydict) (rest : list pydict) (t : list event) (rep : wifi_report) :
  Bridge.windows_scan output timestamp = cn :: rest ->
  cn !! "Is_Secure" = Some (PInt 1) ->
  process_wifi_data py_float float_repr arts (cn :: rest) = (t, Return rep) ->
  is_secure (security_value float_repr cn) = true
  /\ threat_tier rep
     = if String.eqb (result rep) "THREAT" then "CRITICAL" else "LOW".
Proof.
  intros Hscan Hflag Hp. unfold Bridge.windows_scan in Hscan.
  destruct (Bridge.parse_windows_output output timestamp) as [|r parsed];
    [discriminate|].
  simpl in Hscan. inversion Hscan as [[Hcn Hrest]]. clear Hscan.
  subst cn rest.
  assert (is_secure (security_value float_repr
                       (Bridge.classify_network "Authentication" r)) = true)
    as Hsec.
  { unfold Bridge.classify_network in Hflag.
    rewrite lookup_insert_ne in Hflag by done.
    rewrite lookup_insert_eq in Hflag. inversion Hflag as [Hc]. clear Hflag.
    apply classify_security_wpa in Hc.
    unfold security_value, dict_get.
    rewrite classify_network_lookup by done.
    unfold is_secure.
    destruct (r !! "Authentication") as [text|]; simpl in *;
      by rewrite Hc. }
  split; [exact Hsec|].
  apply process_wifi_data_returned in Hp
    as (s & sc & _ & _ & _ & _ & _ & _ & _ & Htier).
  rewrite Htier. unfold profile. by rewrite Hsec.
Qed.

End HandOff.

Lemma linux_scan_never_low_witness :
  threat_tier
    (returned no_networks_report
       (process_wifi_data float_of_digits repr_whole_float no_artifacts
          (Bridge.linux_scan linux_listing "2026-01-01 00:00:00")))
  <> "LOW".
Proof.
  refine (proj1 (linux_scan_never_low float_of_digits repr_whole_float
                   no_artifacts linux_listing "2026-01-01 00:00:00"
                   (process_wifi_data float_of_digits repr_whole_float
                      no_artifacts
                      (Bridge.linux_scan linux_listing "2026-01-01 00:00:00")).1
                   _ _ _)).
  - intros Heq. apply (f_equal (@length pydict)) in Heq.
    vm_compute in Heq. discriminate Heq.
  - vm_compute. reflexivity.
Defined.

Lemma scanner_secure_is_server_secure_witness :
  is_secure
    (security_value repr_whole_float
       (hd ∅ (Bridge.windows_scan windows_listing "2026-01-01 00:00:00")))
  = true.
Proof.
  refine (proj1 (scanner_secure_is_server_secure float_of_digits
                   repr_whole_float no_artifacts windows_listing
                   "2026-01-01 00:00:00"
                   (hd ∅ (Bridge.windows_scan windows_listing
                            "2026-01-01 00:00:00"))
                   (tl (Bridge.windows_scan windows_listing
                          "2026-01-01 00:00:00"))
                   (process_wifi_data float_of_digits repr_whole_float
                      no_artifacts
                      (Bridge.windows_scan windows_listing
                         "2026-01-01 00:00:00")).1
                   (returned no_networks_report
                      (process_wifi_data float_of_digits repr_whole_float
                         no_artifacts
                         (Bridge.windows_scan windows_listing
                            "2026-01-01 00:00:00")))
                   _ _ _)).
  - vm_compute. reflexivity.
  - vm_compute. reflexivity.
  - vm_compute. reflexivity.
Defined.

(** X29: for the resolver a network is secure exactly when its
    authentication text contains wpa in any letter case; the tests for
    wpa2 and wpa3 add nothing, and WEP or an unknown text counts as
    open. *)
Theorem secure_means_wpa (connected_network : pydict)
    (float_repr : float -> string) :
  is_secure (security_value float_repr connected_network)
  = PyStr.contains "wpa"
      (PyStr.lower
         (py_str float_repr
            (dict_get connected_network "Authentication" (PStr "N/A")))).
Proof.
  unfold is_secure, security_value.
  set (sv := PyStr.lower _).
  destruct (PyStr.contains "wpa" sv) eqn:Hw; [reflexivity|]. simpl.
  destruct (PyStr.contains "wpa2" sv) eqn:H2.
  { apply (contains_shorter "wpa" "2") in H2. congruence. }
  destruct (PyStr.contains "wpa3" sv) eqn:H3; [|reflexivity].
  apply (contains_shorter "wpa" "3") in H3. congruence.
Qed.
